(** * ckanext-socrata: the Socrata harvester ([ckanext/socrata/plugin.py])

    A shallow embedding of [SocrataHarvester] and the properties of its
    gather and import stages.

    The Python values the harvester handles are decoded JSON documents, so
    they are modelled by one type [json]; the few Python operations the
    source applies to them (subscription, [dict.get], [len], iteration,
    truth value, [str.format]) are written out with the exceptions they
    raise.  The harvest objects as the database session holds them, the
    CKAN package tables and the diagnostics the harvester emits form an
    explicit [World] threaded through a state-and-exception monad.  Library code the harvester calls
    but does not define (the JSON codec, CKAN's munge functions and
    actions, [urlparse], [requests]) is gathered in the class
    [Externals]. *)

From Stdlib Require Import String Ascii List Bool Arith ZArith Lia.
From Stdlib Require Import DecimalString.
Import ListNotations.
Local Open Scope list_scope.
Local Open Scope string_scope.

(** ** Python values and exceptions *)

#[local] Set Warnings "-register-all".

Inductive json : Type :=
| JNull
| JBool (b : bool)
| JNum (z : Z)
| JStr (s : string)
| JArr (items : list json)
| JObj (members : list (string * json)).

Inductive exn : Type :=
| KeyError (key : string)
| IndexError
| TypeError
| AttributeError
| ValueError
| ActionError (message : string).

Inductive result (A : Type) : Type :=
| Ok (a : A)
| Raise (e : exn).
Arguments Ok {A} a.
Arguments Raise {A} e.

Definition rbind {A B} (r : result A) (k : A -> result B) : result B :=
  match r with
  | Ok a => k a
  | Raise e => Raise e
  end.

Declare Scope result_scope.
Delimit Scope result_scope with result.
Notation "'let?' x ':=' r 'in' k" := (rbind r (fun x => k))
  (at level 10, x name, r at level 100, k at level 200) : result_scope.

Fixpoint rmap {A B} (f : A -> result B) (l : list A) : result (list B) :=
  match l with
  | [] => Ok []
  | a :: l' =>
      match f a with
      | Ok b => match rmap f l' with
                | Ok bs => Ok (b :: bs)
                | Raise e => Raise e
                end
      | Raise e => Raise e
      end
  end.

(** A dict keeps one value per key; [members] lists its items and lookup
    takes the first binding of the key. *)
Fixpoint assoc {A} (k : string) (l : list (string * A)) : option A :=
  match l with
  | [] => None
  | (k', v) :: l' => if String.eqb k k' then Some v else assoc k l'
  end.

(** [v[k]] with a string key [k]. *)
Definition getitem (v : json) (k : string) : result json :=
  match v with
  | JObj members =>
      match assoc k members with
      | Some x => Ok x
      | None => Raise (KeyError k)
      end
  | _ => Raise TypeError
  end.

(** [v.get(k, default)]. *)
Definition get (v : json) (k : string) (default : json) : result json :=
  match v with
  | JObj members =>
      match assoc k members with
      | Some x => Ok x
      | None => Ok default
      end
  | _ => Raise AttributeError
  end.

Definition chars (s : string) : list json :=
  map (fun c => JStr (String c EmptyString)) (list_ascii_of_string s).

(** [len(v)]. *)
Definition py_len (v : json) : result nat :=
  match v with
  | JArr items => Ok (length items)
  | JStr s => Ok (String.length s)
  | JObj members => Ok (length members)
  | _ => Raise TypeError
  end.

(** The items [for x in v] runs over. *)
Definition py_iter (v : json) : result (list json) :=
  match v with
  | JArr items => Ok items
  | JStr s => Ok (chars s)
  | JObj members => Ok (map (fun kv => JStr (fst kv)) members)
  | _ => Raise TypeError
  end.

(** The items [for x in a + b] runs over. *)
Definition iter_sum (a b : json) : result (list json) :=
  match a, b with
  | JArr x, JArr y => Ok (x ++ y)%list
  | JStr x, JStr y => Ok (chars (x ++ y))
  | _, _ => Raise TypeError
  end.

(** Truth value of a decoded value. *)
Definition truthy (v : json) : bool :=
  match v with
  | JNull => false
  | JBool b => b
  | JNum z => negb (Z.eqb z 0)
  | JStr s => negb (String.eqb s "")
  | JArr items => match items with [] => false | _ => true end
  | JObj members => match members with [] => false | _ => true end
  end.

(** ** Strings *)

Definition decimal (n : nat) : string := NilEmpty.string_of_uint (Nat.to_uint n).

Fixpoint lstrip (c : ascii) (s : string) : string :=
  match s with
  | EmptyString => EmptyString
  | String a s' => if Ascii.eqb a c then lstrip c s' else s
  end.

Definition string_rev (s : string) : string :=
  string_of_list_ascii (rev (list_ascii_of_string s)).

(** [s.strip(c)] for a one-character [c]. *)
Definition strip (c : ascii) (s : string) : string :=
  string_rev (lstrip c (string_rev (lstrip c s))).

Definition digit_of (c : ascii) : option nat :=
  let n := nat_of_ascii c in
  if Nat.leb 48 n && Nat.leb n 57 then Some (n - 48) else None.

Fixpoint index_of_name (s : string) (acc : nat) : option nat :=
  match s with
  | EmptyString => Some acc
  | String c s' =>
      match digit_of c with
      | Some d => index_of_name s' (10 * acc + d)
      | None => None
      end
  end.

(** The value a replacement field names: [{}] takes the next positional
    argument, [{N}] the N-th, [{name}] the keyword argument. *)
Definition field_value (name : string) (auto : nat)
    (args : list string) (kwargs : list (string * string)) : result string :=
  match name with
  | EmptyString =>
      match nth_error args auto with
      | Some v => Ok v
      | None => Raise IndexError
      end
  | _ =>
      match index_of_name name 0 with
      | Some i =>
          match nth_error args i with
          | Some v => Ok v
          | None => Raise IndexError
          end
      | None =>
          match assoc name kwargs with
          | Some v => Ok v
          | None => Raise (KeyError name)
          end
      end
  end.

(** [str.format] with positional and keyword arguments, for templates made
    of text and plain replacement fields, which is all the harvester uses.  [field] is the
    name read so far when the scan is inside braces. *)
Fixpoint format_scan (template : string) (field : option string) (auto : nat)
    (args : list string) (kwargs : list (string * string)) : result string :=
  match template with
  | EmptyString =>
      match field with
      | None => Ok EmptyString
      | Some _ => Raise ValueError
      end
  | String c rest =>
      match field with
      | None =>
          if Ascii.eqb c "{"%char
          then format_scan rest (Some EmptyString) auto args kwargs
          else match format_scan rest None auto args kwargs with
               | Ok out => Ok (String c out)
               | Raise e => Raise e
               end
      | Some name =>
          if Ascii.eqb c "}"%char
          then match field_value name auto args kwargs with
               | Ok v =>
                   let auto' := match name with
                                | EmptyString => S auto
                                | _ => auto
                                end in
                   match format_scan rest None auto' args kwargs with
                   | Ok out => Ok (v ++ out)
                   | Raise e => Raise e
                   end
               | Raise e => Raise e
               end
          else format_scan rest (Some (name ++ String c EmptyString)) auto args kwargs
      end
  end.

Definition format (template : string) (args : list string)
    (kwargs : list (string * string)) : result string :=
  format_scan template None 0 args kwargs.

(** [template % arg] for a template with one [%s]. *)
Fixpoint percent_s (template : string) (arg : string) : string :=
  match template with
  | EmptyString => EmptyString
  | String c rest =>
      match rest with
      | String d rest' =>
          if Ascii.eqb c "%"%char && Ascii.eqb d "s"%char
          then arg ++ rest'
          else String c (percent_s rest arg)
      | EmptyString => String c EmptyString
      end
  end.

(** Identity of Python objects, as far as the source compares them: the
    singletons [True], [False], [None] and the column attributes of a mapped
    class. *)
Inductive column : Type := Col_guid | Col_current.

Inductive pyobj : Type :=
| PyTrue
| PyFalse
| PyNone
| PyAttribute (c : column).

Definition column_eqb (a b : column) : bool :=
  match a, b with
  | Col_guid, Col_guid => true
  | Col_current, Col_current => true
  | _, _ => false
  end.

(** [a is b]. *)
Definition py_is (a b : pyobj) : bool :=
  match a, b with
  | PyTrue, PyTrue => true
  | PyFalse, PyFalse => true
  | PyNone, PyNone => true
  | PyAttribute c, PyAttribute d => column_eqb c d
  | _, _ => false
  end.

(** [k in v] for a string [k]. *)
Definition contains (v : json) (k : string) : result bool :=
  match v with
  | JObj members =>
      Ok (match assoc k members with Some _ => true | None => false end)
  | JArr items =>
      Ok (existsb (fun x => match x with
                            | JStr s => String.eqb s k
                            | _ => false
                            end) items)
  | JStr s => Ok (match index 0 k s with Some _ => true | None => false end)
  | _ => Raise TypeError
  end.

(** ** The harvest model ([ckanext.harvest.model]) and CKAN's package tables *)

Record HarvestSource : Type := {
  source_id : string;
  source_url : string;
  source_title : string
}.

Record HarvestJob : Type := {
  job_id : string;
  job_source : HarvestSource
}.

Record HarvestObject : Type := {
  ho_id : string;
  ho_guid : string;
  ho_job : HarvestJob;
  ho_source : HarvestSource;
  ho_content : option string;
  ho_current : bool
}.

Definition with_current (o : HarvestObject) (b : bool) : HarvestObject :=
  {| ho_id := ho_id o; ho_guid := ho_guid o; ho_job := ho_job o;
     ho_source := ho_source o; ho_content := ho_content o; ho_current := b |}.

Record Package : Type := {
  package_id : string;
  package_name : string;
  package_state : string;
  package_owner_org : json
}.

Record PackageExtra : Type := {
  extra_package_id : string;
  extra_key : string;
  extra_value : string
}.

Record Store : Type := {
  Package_table : list Package;
  PackageExtra_table : list PackageExtra
}.

(** The dict [_build_package_dict] returns. *)
Record tag_dict : Type := { tag_name : string }.

Record resource_dict : Type := {
  resource_url : string;
  resource_format : string
}.

Record package_dict : Type := {
  pkg_title : json;
  pkg_name : string;
  pkg_url : json;
  pkg_notes : json;
  pkg_author : json;
  pkg_tags : list tag_dict;
  pkg_extras : list json;
  pkg_identifier : json;
  pkg_owner_org : json;
  pkg_resources : list resource_dict;
  pkg_harvest_source_id : string;
  pkg_harvest_source_url : string;
  pkg_harvest_source_title : string;
  pkg_provenance : option json
}.

(** The context dict handed to an action: [{}] or [base_context]. *)
Record context : Type := {
  ctx_user : option string;
  ctx_ignore_auth : bool
}.

Definition empty_context : context :=
  {| ctx_user := None; ctx_ignore_auth := false |}.

Inductive api_response : Type :=
| Undecodable
| Body (api_json : json).

(** ** The world the harvester acts on *)

Inductive level : Type := DEBUG | INFO | ERROR.

(** What the harvester does to its surroundings, in the order it does it. *)
Inductive event : Type :=
| Log (l : level) (message : string)
| Request (api_request_url : string)
| SaveGatherError (message : string) (job : HarvestJob)
| SaveObjectError (message : string) (object_id : string) (stage : string)
| Add (object_id : string)
| Save (object_id : string)
| PackageShow (ctx : context) (id : string)
| PackageCreate (ctx : context) (data_dict : package_dict)
| PackageUpdate (ctx : context) (data_dict : package_dict).

Record World : Type := {
  harvest_objects : list HarvestObject;
  store : Store;
  events : list event;
  requests_made : nat;
  uuids_made : nat
}.

Definition M (A : Type) : Type := World -> result A * World.

Definition ret {A} (a : A) : M A := fun w => (Ok a, w).

Definition raise {A} (e : exn) : M A := fun w => (Raise e, w).

Definition bind {A B} (m : M A) (k : A -> M B) : M B :=
  fun w =>
    match m w with
    | (Ok a, w') => k a w'
    | (Raise e, w') => (Raise e, w')
    end.

Definition lift {A} (r : result A) : M A := fun w => (r, w).

(** [try: body  except Exception as e: handler]. *)
Definition try_except {A} (body : M A) (handler : exn -> M A) : M A :=
  fun w =>
    match body w with
    | (Ok a, w') => (Ok a, w')
    | (Raise e, w') => handler e w'
    end.

Declare Scope harvest_scope.
Delimit Scope harvest_scope with harvest.
Notation "x <- c ;; k" := (bind c (fun x => k))
  (at level 61, c at next level, right associativity) : harvest_scope.
Notation "c ;; k" := (bind c (fun _ => k))
  (at level 61, right associativity) : harvest_scope.
Local Open Scope harvest_scope.

Definition record (e : event) (w : World) : World :=
  {| harvest_objects := harvest_objects w; store := store w;
     events := (events w ++ [e])%list;
     requests_made := requests_made w; uuids_made := uuids_made w |}.

Definition emit (e : event) : M unit := fun w => (Ok tt, record e w).

Definition log (l : level) (message : string) : M unit := emit (Log l message).

(** [HarvesterBase._save_gather_error] and [_save_object_error] record the
    message against the job or the object. *)
Definition _save_gather_error (message : string) (job : HarvestJob) : M unit :=
  emit (SaveGatherError message job).

Definition _save_object_error (message : string) (o : HarvestObject)
    (stage : string) : M unit :=
  emit (SaveObjectError message (ho_id o) stage).

(** ** The session's view of the [harvest_object] table *)

Definition has_id (id : string) (o : HarvestObject) : bool :=
  String.eqb (ho_id o) id.

(** Writing an object back: its row is replaced, a new object gets a row. *)
Definition put_object (o : HarvestObject) (rows : list HarvestObject)
    : list HarvestObject :=
  if existsb (has_id (ho_id o)) rows
  then map (fun r => if has_id (ho_id o) r then o else r) rows
  else (rows ++ [o])%list.

Definition set_objects (rows : list HarvestObject) (w : World) : World :=
  {| harvest_objects := rows; store := store w; events := events w;
     requests_made := requests_made w; uuids_made := uuids_made w |}.

(** [o.current = b; o.add()]. *)
Definition flag_and_add (o : HarvestObject) (b : bool) : M unit :=
  fun w =>
    emit (Add (ho_id o))
         (set_objects (put_object (with_current o b) (harvest_objects w)) w).

(** A filter criterion of a query on [HarvestObject]: a comparison of the
    guid column, or a plain Python boolean, which SQLAlchemy takes as the
    constant condition. *)
Inductive criterion : Type :=
| Guid_eq (guid : string)
| Constant (b : bool).

Definition satisfies (o : HarvestObject) (c : criterion) : bool :=
  match c with
  | Guid_eq guid => String.eqb (ho_guid o) guid
  | Constant b => b
  end.

(** [Session.query(HarvestObject).filter(c1).filter(c2)...first()]. *)
Definition query_first (criteria : list criterion) : M (option HarvestObject) :=
  fun w =>
    (Ok (hd_error (filter (fun o => forallb (satisfies o) criteria)
                          (harvest_objects w))), w).

(** ** Library code the harvester calls *)

Class Externals : Type := {
  (** [json.loads] and [json.dumps] *)
  json_loads : string -> result json;
  json_dumps : json -> string;
  (** [ckan.lib.munge] *)
  munge_title_to_name : json -> result string;
  munge_tag : json -> result string;
  (** [urlparse(url).hostname] *)
  hostname : string -> option string;
  (** the text of a decoded value that is not a string, and of an exception *)
  py_str : json -> string;
  exn_str : exn -> string;
  (** what a text column makes of a value that is not a string *)
  text_column : json -> result string;
  (** [HarvesterBase._get_user_name] *)
  _get_user_name : string;
  (** the id the model gives the n-th object it creates *)
  make_uuid : nat -> string;
  (** the response to the n-th request the harvester issues *)
  requests_get : nat -> string -> api_response;
  (** CKAN's actions on the package tables *)
  package_show : context -> string -> Store -> result json;
  package_create : context -> package_dict -> Store -> result json * Store;
  package_update : context -> package_dict -> Store -> result json * Store
}.

Definition BASE_API_ENDPOINT : string :=
  "https://api.us.socrata.com/api/catalog/v1".

Definition DOWNLOAD_ENDPOINT_TEMPLATE : string :=
  "https://{domain}/api/views/{resource_id}/rows.csv?accessType=DOWNLOAD".

(** ** The harvester *)

Section SocrataHarvester.

Context {E : Externals}.

(** How [str.format] renders an argument. *)
Definition text (v : json) : string :=
  match v with
  | JStr s => s
  | _ => py_str v
  end.

Definition text_of_hostname (h : option string) : string :=
  match h with
  | Some s => s
  | None => "None"
  end.

Definition set_store (st : Store) (w : World) : World :=
  {| harvest_objects := harvest_objects w; store := st; events := events w;
     requests_made := requests_made w; uuids_made := uuids_made w |}.

(** [toolkit.get_action(...)(context, data_dict)]. *)
Definition action_package_show (ctx : context) (id : string) : M json :=
  emit (PackageShow ctx id) ;;
  (fun w => (package_show ctx id (store w), w)).

Definition action_package_create (ctx : context) (d : package_dict) : M json :=
  emit (PackageCreate ctx d) ;;
  (fun w => let (r, st) := package_create ctx d (store w) in (r, set_store st w)).

Definition action_package_update (ctx : context) (d : package_dict) : M json :=
  emit (PackageUpdate ctx d) ;;
  (fun w => let (r, st) := package_update ctx d (store w) in (r, set_store st w)).

(** The query of [_get_existing_dataset]: the ids of the active packages
    joined with their [identifier] extras of value [guid]. *)
Definition join_Package_PackageExtra (st : Store) : list (Package * PackageExtra) :=
  filter (fun pe => String.eqb (extra_package_id (snd pe)) (package_id (fst pe)))
         (list_prod (Package_table st) (PackageExtra_table st)).

Definition query_identifier (st : Store) (guid : string) : list string :=
  map (fun pe => package_id (fst pe))
    (filter (fun pe => String.eqb (package_state (fst pe)) "active")
      (filter (fun pe => String.eqb (extra_value (snd pe)) guid)
        (filter (fun pe => String.eqb (extra_key (snd pe)) "identifier")
          (join_Package_PackageExtra st)))).

Definition _get_existing_dataset (guid : string) : M (option json) :=
  datasets <- (fun w => (Ok (query_identifier (store w) guid), w)) ;;
  match datasets with
  | [] => ret None
  | first :: _ =>
      (if Nat.ltb 1 (length datasets)
       then message <- lift (format
              "Found more than one dataset with the same guid: {0}" [guid] []) ;;
            log ERROR message
       else ret tt) ;;
      shown <- action_package_show empty_context first ;;
      ret (Some shown)
  end.

(** [json.loads(harvest_object.content)]. *)
Definition loads_content (o : HarvestObject) : result json :=
  match ho_content o with
  | Some content => json_loads content
  | None => Raise TypeError
  end.

Definition _build_package_dict (ctx : context) (harvest_object : HarvestObject)
    : M package_dict :=
  (* Local harvest source organization *)
  source_dataset <- action_package_show ctx (source_id (ho_source harvest_object)) ;;
  local_org <- lift (get source_dataset "owner_org" JNull) ;;
  res <- lift (loads_content harvest_object) ;;
  resource <- lift (getitem res "resource") ;;
  title <- lift (getitem resource "name") ;;
  name <- lift (munge_title_to_name title) ;;
  url <- lift (get res "permalink" (JStr "")) ;;
  notes <- lift (get resource "description" (JStr "")) ;;
  author <- lift (getitem resource "attribution") ;;
  identifier <- lift (getitem resource "id") ;;
  (* Add tags *)
  classification <- lift (getitem res "classification") ;;
  tags <- lift (get classification "tags" (JArr [])) ;;
  domain_tags <- lift (get classification "domain_tags" (JArr [])) ;;
  all_tags <- lift (iter_sum tags domain_tags) ;;
  munged <- lift (rmap munge_tag all_tags) ;;
  (* Add domain_metadata to extras *)
  domain_metadata <- lift (get classification "domain_metadata" (JArr [])) ;;
  extras <- lift (py_iter domain_metadata) ;;
  (* Add provenance *)
  declared <- lift (get resource "provenance" (JBool false)) ;;
  provenance <- (if truthy declared
                 then p <- lift (getitem resource "provenance") ;; ret (Some p)
                 else ret None) ;;
  (* Resources *)
  download <- lift (format DOWNLOAD_ENDPOINT_TEMPLATE []
                [("domain", text_of_hostname
                              (hostname (source_url (ho_source harvest_object))));
                 ("resource_id", text identifier)]) ;;
  ret {| pkg_title := title;
         pkg_name := name;
         pkg_url := url;
         pkg_notes := notes;
         pkg_author := author;
         pkg_tags := map (fun t => {| tag_name := t |}) munged;
         pkg_extras := extras;
         pkg_identifier := identifier;
         pkg_owner_org := local_org;
         pkg_resources := [ {| resource_url := download;
                               resource_format := "CSV" |} ];
         (* Add harvester details *)
         pkg_harvest_source_id := source_id (job_source (ho_job harvest_object));
         pkg_harvest_source_url :=
           strip "/"%char (source_url (job_source (ho_job harvest_object)));
         pkg_harvest_source_title :=
           source_title (job_source (ho_job harvest_object));
         pkg_provenance := provenance |}.

(** *** Gather *)

Definition api_request_url (domain : string) (limit offset : nat) : result string :=
  format "{0}?domains={1}&search_context={1}&only=datasets&limit={2}&offset={3}"
         [BASE_API_ENDPOINT; domain; decimal limit; decimal offset] [].

(** [requests.get(url)]. *)
Definition requests_get_now (url : string) : M api_response :=
  fun w =>
    (Ok (requests_get (requests_made w) url),
     {| harvest_objects := harvest_objects w; store := store w;
        events := (events w ++ [Request url])%list;
        requests_made := S (requests_made w); uuids_made := uuids_made w |}).

(** Returns the decoded [results], or [None], which is [JNull] here as it
    is for a decoded [null]. *)
Definition _request_datasets_from_socrata (harvest_job : HarvestJob)
    (domain : string) (limit offset : nat) : M json :=
  url <- lift (api_request_url domain limit offset) ;;
  requesting <- lift (format "Requesting {}" [url] []) ;;
  log DEBUG requesting ;;
  api_response <- requests_get_now url ;;
  match api_response with
  | Undecodable =>
      message <- lift (format "Gather error: Invalid response from {}" [url] []) ;;
      _save_gather_error message harvest_job ;;
      ret JNull
  | Body api_json =>
      has_error <- lift (contains api_json "error") ;;
      if has_error : bool
      then error <- lift (getitem api_json "error") ;;
           message <- lift (format "Gather error: {}" [text error] []) ;;
           _save_gather_error message harvest_job ;;
           ret JNull
      else results <- lift (getitem api_json "results") ;;
           ret results
  end.

(** The generator [_page_datasets(domain, batch_number)]: its local
    [current_offset] and the rest of the page its [for] loop is in. *)
Record pager : Type := {
  pager_job : HarvestJob;
  pager_domain : string;
  batch_number : nat;
  current_offset : nat;
  page_rest : list json
}.

Definition _page_datasets (harvest_job : HarvestJob) (domain : string)
    (batch : nat) : pager :=
  {| pager_job := harvest_job; pager_domain := domain; batch_number := batch;
     current_offset := 0; page_rest := [] |}.

Definition resume (g : pager) (offset : nat) (rest : list json) : pager :=
  {| pager_job := pager_job g; pager_domain := pager_domain g;
     batch_number := batch_number g;
     current_offset := offset; page_rest := rest |}.

(** One [next()] on the generator: the dataset it yields, or [None] when it
    stops. *)
Definition pager_next (g : pager) : M (option json * pager) :=
  match page_rest g with
  | dataset :: rest => ret (Some dataset, resume g (current_offset g) rest)
  | [] =>
      datasets <- _request_datasets_from_socrata
                    (pager_job g) (pager_domain g) (batch_number g)
                    (current_offset g) ;;
      match datasets with
      | JNull => ret (None, g)
      | _ =>
          n <- lift (py_len datasets) ;;
          if Nat.eqb n 0
          then ret (None, g)
          else
            items <- lift (py_iter datasets) ;;
            match items with
            | dataset :: rest =>
                ret (Some dataset,
                     resume g (current_offset g + batch_number g) rest)
            | [] => ret (None, resume g (current_offset g + batch_number g) [])
            end
      end
  end.

(** [HarvestObject(guid=..., job=harvest_job, content=...)] followed by
    [obj.save()]: the model gives the object its id, its source (the job's)
    and [current = False]. *)
Definition save_new_object (guid : string) (harvest_job : HarvestJob)
    (content : string) : M HarvestObject :=
  fun w =>
    let obj := {| ho_id := make_uuid (uuids_made w); ho_guid := guid;
                  ho_job := harvest_job; ho_source := job_source harvest_job;
                  ho_content := Some content; ho_current := false |} in
    (Ok obj,
     {| harvest_objects := put_object obj (harvest_objects w);
        store := store w;
        events := (events w ++ [Save (ho_id obj)])%list;
        requests_made := requests_made w;
        uuids_made := S (uuids_made w) |}).

(** The body of the loop of [_make_harvest_objs]. *)
Definition make_harvest_obj (harvest_job : HarvestJob) (d : json) : M string :=
  resource <- lift (getitem d "resource") ;;
  name <- lift (getitem resource "name") ;;
  id <- lift (getitem resource "id") ;;
  creating <- lift (format "Creating HarvestObject for {} {}"
                           [text name; text id] []) ;;
  log DEBUG creating ;;
  guid <- lift (match id with JStr s => Ok s | _ => text_column id end) ;;
  obj <- save_new_object guid harvest_job (json_dumps d) ;;
  ret (ho_id obj).

(** [_make_harvest_objs(datasets)] over the generator.  [fuel] bounds the
    number of [next()] calls; [None] is a loop cut short by the bound. *)
Fixpoint _make_harvest_objs (fuel : nat) (harvest_job : HarvestJob)
    (datasets : pager) (obj_ids : list string) (w : World)
    : option (result (list string) * World) :=
  match fuel with
  | O => None
  | S fuel' =>
      match pager_next datasets w with
      | (Raise e, w1) => Some (Raise e, w1)
      | (Ok (None, _), w1) => Some (Ok obj_ids, w1)
      | (Ok (Some d, datasets'), w1) =>
          match make_harvest_obj harvest_job d w1 with
          | (Raise e, w2) => Some (Raise e, w2)
          | (Ok id, w2) =>
              _make_harvest_objs fuel' harvest_job datasets'
                                 (obj_ids ++ [id])%list w2
          end
      end
  end.

(** The datasets the generator yields when it is run to its end, with the
    exception that ended it if one did. *)
Fixpoint pager_run (fuel : nat) (g : pager) (yielded : list json) (w : World)
    : option (list json * option exn * World) :=
  match fuel with
  | O => None
  | S fuel' =>
      match pager_next g w with
      | (Raise e, w1) => Some (yielded, Some e, w1)
      | (Ok (None, _), w1) => Some (yielded, None, w1)
      | (Ok (Some d, g'), w1) => pager_run fuel' g' (yielded ++ [d])%list w1
      end
  end.

Definition gather_stage (fuel : nat) (harvest_job : HarvestJob) (w : World)
    : option (result (list string) * World) :=
  match log DEBUG (percent_s "In SocrataHarvester gather_stage (%s)"
                             (source_url (job_source harvest_job))) w with
  | (Raise e, w1) => Some (Raise e, w1)
  | (Ok _, w1) =>
      let domain := hostname (source_url (job_source harvest_job)) in
      _make_harvest_objs fuel harvest_job
        (_page_datasets harvest_job (text_of_hostname domain) 100) [] w1
  end.

Definition fetch_stage (harvest_object : HarvestObject) : M bool := ret true.

(** *** Import *)

Definition base_context : context :=
  {| ctx_user := Some _get_user_name; ctx_ignore_auth := true |}.

Definition existing (existing_dataset : option json) : bool :=
  match existing_dataset with
  | Some d => truthy d
  | None => false
  end.

Definition import_stage (harvest_object : option HarvestObject) : M bool :=
  log DEBUG "In SocrataHarvester import_stage" ;;
  match harvest_object with
  | None =>
      log ERROR "No harvest object received" ;;
      ret false
  | Some harvest_object =>
      match ho_content harvest_object with
      | None =>
          _save_object_error
            (percent_s "Empty content for object %s" (ho_id harvest_object))
            harvest_object "Import" ;;
          ret false
      | Some content =>
          (* Get the last harvested object (if any) *)
          previous_object <-
            query_first [Guid_eq (ho_guid harvest_object);
                         Constant (py_is (PyAttribute Col_current) PyTrue)] ;;
          (* Flag previous object as not current anymore *)
          match previous_object with
          | Some previous => flag_and_add previous false
          | None => ret tt
          end ;;
          (* Flag this object as the current one *)
          flag_and_add harvest_object true ;;
          res <- lift (json_loads content) ;;
          (* Check if a dataset with the same guid exists *)
          existing_dataset <- _get_existing_dataset (ho_guid harvest_object) ;;
          package_dict <- _build_package_dict base_context harvest_object ;;
          if existing existing_dataset
          then
            resource <- lift (getitem res "resource") ;;
            id <- lift (getitem resource "id") ;;
            message <- lift (format "Existing dataset {}" [text id] []) ;;
            log DEBUG message ;;
            try_except
              (action_package_update base_context package_dict ;; ret true)
              (fun e =>
                 message <- lift (format "Error updating package for {}: {}"
                                    [ho_id harvest_object; exn_str e] []) ;;
                 _save_object_error message harvest_object "Import" ;;
                 ret false)
          else
            resource <- lift (getitem res "resource") ;;
            id <- lift (getitem resource "id") ;;
            message <- lift (format "New dataset {}" [text id] []) ;;
            log DEBUG message ;;
            try_except
              (action_package_create base_context package_dict ;; ret true)
              (fun e =>
                 message <- lift (format "Error creating package for {}: {}"
                                    [ho_id harvest_object; exn_str e] []) ;;
                 _save_object_error message harvest_object "Import" ;;
                 ret false)
      end
  end.

End SocrataHarvester.

(** ** Helpers of the harvester outside the stages *)

(** A row of [harvest_object.extras]. *)
Record HarvestObjectExtra : Type := {
  object_extra_key : string;
  object_extra_value : option string
}.

(** [_get_object_extra(harvest_object, key)], on the extras of the object:
    the value of the first extra with that key ([None] is Python's). *)
Fixpoint _get_object_extra (extras : list HarvestObjectExtra) (key : string)
    : option string :=
  match extras with
  | [] => None
  | extra :: rest =>
      if String.eqb (object_extra_key extra) key
      then object_extra_value extra
      else _get_object_extra rest key
  end.

(** ** The vocabulary of the properties *)

Section Vocabulary.

Context {E : Externals}.

(** [effects Q m]: running [m] leaves the harvest objects as they are and
    appends only events satisfying [Q]. *)
Definition effects {A} (Q : event -> Prop) (m : M A) : Prop :=
  forall w r w', m w = (r, w') ->
    harvest_objects w' = harvest_objects w /\
    exists es, events w' = (events w ++ es)%list /\ Forall Q es.

(** The first thing [import_stage] logs. *)
Definition entering : event := Log DEBUG "In SocrataHarvester import_stage".

(** At most one harvest object per guid is flagged current. *)
Definition one_current_per_guid (rows : list HarvestObject) : Prop :=
  forall x y, In x rows -> In y rows ->
    ho_guid x = ho_guid y -> ho_current x = true -> ho_current y = true ->
    ho_id x = ho_id y.

(** The descriptor's external identifier, [res['resource']['id']]. *)
Definition descriptor_id (res : json) : result json :=
  match getitem res "resource" with
  | Ok resource => getitem resource "id"
  | Raise e => Raise e
  end.

(** The builder reads the world only through [package_show] of the harvest
    source: [built ctx o st] is the record it makes in store [st]. *)
Definition built (ctx : context) (o : HarvestObject) (st : Store)
    : result package_dict :=
  fst (_build_package_dict ctx o
         {| harvest_objects := []; store := st; events := [];
            requests_made := 0; uuids_made := 0 |}).

(** [res['resource'][k]] evaluates without an exception. *)
Definition has_field (res : json) (k : string) : bool :=
  match getitem res "resource" with
  | Ok resource => match getitem resource k with
                   | Ok _ => true
                   | Raise _ => false
                   end
  | Raise _ => false
  end.

Definition required_fields : list string := ["name"; "id"; "attribution"].

Definition lacks_required (res : json) : bool :=
  existsb (fun k => negb (has_field res k)) required_fields.

(** Classes of events. *)
Definition reconciles (e : event) : bool :=
  match e with
  | PackageCreate _ _ | PackageUpdate _ _ => true
  | _ => false
  end.

Definition records_object_error (e : event) : bool :=
  match e with
  | SaveObjectError _ _ _ => true
  | _ => false
  end.

(** The import of [o] ended as a failure recorded against [o]. *)
Definition failure_recorded (o : HarvestObject) (w : World) : Prop :=
  exists w' message,
    import_stage (Some o) w = (Ok false, w') /\
    In (SaveObjectError message (ho_id o) "Import") (events w').

(** The diagnostic of [_get_existing_dataset] for several matches. *)
Definition anomaly (guid : string) : event :=
  Log ERROR ("Found more than one dataset with the same guid: " ++ guid).

(** The world once the object is flagged current and added. *)
Definition bookkept (o : HarvestObject) (w : World) : World :=
  record (Add (ho_id o))
    (set_objects (put_object (with_current o true) (harvest_objects w))
                 (record entering w)).

(** The create or update step, on the record [pd] the builder made. *)
Definition reconciled (o : HarvestObject) (pd : package_dict) (found : bool)
    (w : World) : result bool * World :=
  let w1 :=
    record (if found then PackageUpdate base_context pd
            else PackageCreate base_context pd)
      (record (Log DEBUG ((if found then "Existing dataset " else "New dataset ")
                          ++ text (pkg_identifier pd))) w) in
  let (r, st) :=
    (if found then package_update else package_create)
      base_context pd (store w) in
  match r with
  | Ok _ => (Ok true, set_store st w1)
  | Raise e =>
      (Ok false,
       record (SaveObjectError
                 ((if found then "Error updating package for "
                   else "Error creating package for ")
                  ++ ho_id o ++ ": " ++ exn_str e)
                 (ho_id o) "Import")
              (set_store st w1))
  end.

(** The url [_request_datasets_from_socrata] requests. *)
Definition request_url (domain : string) (limit offset : nat) : string :=
  BASE_API_ENDPOINT ++ "?domains=" ++ domain ++ "&search_context=" ++ domain
  ++ "&only=datasets&limit=" ++ decimal limit ++ "&offset=" ++ decimal offset.

(** What the catalog client returns for a response. *)
Definition client_result (r : api_response) : result json :=
  match r with
  | Undecodable => Ok JNull
  | Body api_json =>
      match contains api_json "error" with
      | Ok true =>
          match getitem api_json "error" with
          | Ok _ => Ok JNull
          | Raise e => Raise e
          end
      | Ok false => getitem api_json "results"
      | Raise e => Raise e
      end
  end.

(** The gather error the catalog client saves for a response, if any. *)
Definition client_error (job : HarvestJob) (url : string) (r : api_response)
    : list event :=
  match r with
  | Undecodable =>
      [SaveGatherError ("Gather error: Invalid response from " ++ url) job]
  | Body api_json =>
      match contains api_json "error", getitem api_json "error" with
      | Ok true, Ok error => [SaveGatherError ("Gather error: " ++ text error) job]
      | _, _ => []
      end
  end.

(** The world after one call of the catalog client. *)
Definition requested (job : HarvestJob) (url : string) (w : World) : World :=
  {| harvest_objects := harvest_objects w; store := store w;
     events := (events w ++ [Log DEBUG ("Requesting " ++ url); Request url]
                ++ client_error job url (requests_get (requests_made w) url))%list;
     requests_made := S (requests_made w); uuids_made := uuids_made w |}.

(** A result that ends the paging: [None], or a page of length 0. *)
Definition ends_paging (v : json) : bool :=
  match v with
  | JNull => true
  | _ => match py_len v with
         | Ok 0 => true
         | _ => false
         end
  end.

(** The url of the request the pager issues in state [g]. *)
Definition pager_url (g : pager) : string :=
  request_url (pager_domain g) (batch_number g) (current_offset g).

(** The urls requested, and the gather errors saved, among events. *)
Definition requests_of (es : list event) : list string :=
  flat_map (fun e => match e with
                     | Request url => [url]
                     | _ => []
                     end) es.

Definition gather_errors_of (es : list event) : list event :=
  filter (fun e => match e with
                   | SaveGatherError _ _ => true
                   | _ => false
                   end) es.

(** The offsets of [n] successive requests from [offset] on. *)
Definition offsets (offset batch n : nat) : list nat :=
  map (fun i => offset + i * batch) (seq 0 n).









(** [n] copies of the character [c]. *)
Fixpoint repeat_char (c : ascii) (n : nat) : string :=
  match n with
  | O => EmptyString
  | S n' => String c (repeat_char c n')
  end.

Definition starts_with (c : ascii) (s : string) : Prop :=
  exists t, s = String c t.

Definition ends_with (c : ascii) (s : string) : Prop :=
  exists t, s = t ++ String c EmptyString.


(** The first of the required fields that [fields] lacks, in the order the
    builder looks them up: [name], [attribution], [id]. *)
Definition first_missing (fields : list (string * json)) : string :=
  match assoc "name" fields, assoc "attribution" fields with
  | None, _ => "name"
  | Some _, None => "attribution"
  | Some _, Some _ => "id"
  end.

(** Two harvest objects of one dataset, as two runs of the same source
    gather them: same guid, content and source; ids and jobs may differ. *)
Definition same_descriptor (o o2 : HarvestObject) : Prop :=
  ho_guid o2 = ho_guid o /\
  ho_content o2 = ho_content o /\
  ho_source o2 = ho_source o /\
  job_source (ho_job o2) = job_source (ho_job o).

(** The package tables hold an active package with an [identifier] extra
    of value [guid]. *)
Definition stored_under (st : Store) (guid : string) : Prop :=
  exists p x,
    In p (Package_table st) /\ In x (PackageExtra_table st) /\
    extra_package_id x = package_id p /\
    extra_key x = "identifier" /\
    extra_value x = guid /\
    package_state p = "active".

(** Every record the query lists under [guid] is shown to a caller with an
    empty context, as a dict that is not empty. *)
Definition shown_when_listed (st : Store) (guid : string) : Prop :=
  forall id, In id (query_identifier st guid) ->
    exists shown,
      package_show empty_context id st = Ok shown /\ truthy shown = true.




End Vocabulary.

(** ** A small installation to run the harvester on

    A table-driven JSON codec, simple munge rules and an in-memory package
    store, with the catalog of the specification's scenarios. *)

Module Demo.

Definition lower (c : ascii) : ascii :=
  let n := nat_of_ascii c in
  if Nat.leb 65 n && Nat.leb n 90 then ascii_of_nat (n + 32) else c.

Fixpoint slug (s : string) : string :=
  match s with
  | EmptyString => EmptyString
  | String c s' =>
      String (if Ascii.eqb c " "%char then "-"%char else lower c) (slug s')
  end.

Definition munge (v : json) : result string :=
  match v with
  | JStr s => Ok (slug s)
  | _ => Raise TypeError
  end.

Fixpoint after_slashes (s : string) : option string :=
  match s with
  | EmptyString => None
  | String c s' =>
      match s' with
      | String d rest =>
          if Ascii.eqb c "/"%char && Ascii.eqb d "/"%char
          then Some rest
          else after_slashes s'
      | EmptyString => None
      end
  end.

Fixpoint until_slash (s : string) : string :=
  match s with
  | EmptyString => EmptyString
  | String c s' =>
      if Ascii.eqb c "/"%char then EmptyString else String (lower c) (until_slash s')
  end.

Definition netloc (url : string) : option string :=
  match after_slashes url with
  | Some rest => Some (until_slash rest)
  | None => None
  end.

Definition descriptor (id name : string) (fields : list (string * json))
    (classification : list (string * json)) : json :=
  JObj [("resource", JObj (("id", JStr id) :: ("name", JStr name) :: fields));
        ("classification", JObj classification)].

Definition test_set : json :=
  descriptor "abc-123" "Test Set" [("attribution", JStr "Org")]
             [("tags", JArr [JStr "Foo"])].

Definition rivers : json :=
  descriptor "riv-7" "Rivers" [("attribution", JStr "Org")]
             [("tags", JArr [JStr "water"]);
              ("domain_tags", JArr [JStr "water"])].

Definition unattributed : json :=
  descriptor "una-9" "Unattributed" [] [].

Definition documents : list (string * json) :=
  [("doc:abc-123", test_set); ("doc:riv-7", rivers); ("doc:una-9", unattributed)].

Definition loads (s : string) : result json :=
  match assoc s documents with
  | Some v => Ok v
  | None => Raise ValueError
  end.

Definition dumps (v : json) : string :=
  match getitem v "resource" with
  | Ok r => match getitem r "id" with
            | Ok (JStr id) => "doc:" ++ id
            | _ => "null"
            end
  | Raise _ => "null"
  end.

Definition shown (p : Package) : json :=
  JObj [("id", JStr (package_id p)); ("name", JStr (package_name p));
        ("state", JStr (package_state p)); ("owner_org", package_owner_org p)].

Definition named (id : string) (p : Package) : bool :=
  String.eqb (package_id p) id || String.eqb (package_name p) id.

Definition show (ctx : context) (id : string) (st : Store) : result json :=
  match find (named id) (Package_table st) with
  | Some p => Ok (shown p)
  | None => Raise (ActionError "Not found")
  end.

Definition identifier_extras (id : string) (d : package_dict) : list PackageExtra :=
  match pkg_identifier d with
  | JStr v => [ {| extra_package_id := id; extra_key := "identifier";
                   extra_value := v |} ]
  | _ => []
  end.

Definition create (ctx : context) (d : package_dict) (st : Store)
    : result json * Store :=
  match find (named (pkg_name d)) (Package_table st) with
  | Some _ => (Raise (ActionError "That URL is already in use."), st)
  | None =>
      let p := {| package_id := "pkg-" ++ pkg_name d;
                  package_name := pkg_name d;
                  package_state := "active";
                  package_owner_org := pkg_owner_org d |} in
      (Ok (shown p),
       {| Package_table := (Package_table st ++ [p])%list;
          PackageExtra_table :=
            (PackageExtra_table st ++ identifier_extras (package_id p) d)%list |})
  end.

Definition update (ctx : context) (d : package_dict) (st : Store)
    : result json * Store :=
  match find (named (pkg_name d)) (Package_table st) with
  | Some p => (Ok (shown p), st)
  | None => (Raise (ActionError "Not found"), st)
  end.

Definition results (page : list json) : api_response :=
  Body (JObj [("results", JArr page)]).

(** The catalog answers with one page of two datasets, then an empty page. *)
Definition catalog : list api_response :=
  [results [test_set; rivers]; results []].

(** The catalog answers with one page, then is rate limited. *)
Definition limited_catalog : list api_response :=
  [results [test_set; rivers]; Body (JObj [("error", JStr "rate limited")])].

Definition externals (responses : list api_response) : Externals :=
  {| json_loads := loads;
     json_dumps := dumps;
     munge_title_to_name := munge;
     munge_tag := munge;
     hostname := netloc;
     py_str := fun _ => "?";
     exn_str := fun e => match e with
                         | KeyError k => k
                         | ActionError m => m
                         | _ => "error"
                         end;
     text_column := fun _ => Raise TypeError;
     _get_user_name := "harvest";
     make_uuid := fun n => "object-" ++ decimal n;
     requests_get := fun n _ => nth n responses Undecodable;
     package_show := show;
     package_create := create;
     package_update := update |}.

Definition example_source : HarvestSource :=
  {| source_id := "source-1"; source_url := "https://data.example.com/";
     source_title := "Example" |}.

Definition example_job : HarvestJob :=
  {| job_id := "job-1"; job_source := example_source |}.

Definition harvested (id guid : string) (content : option string)
    (current : bool) : HarvestObject :=
  {| ho_id := id; ho_guid := guid; ho_job := example_job;
     ho_source := example_source; ho_content := content;
     ho_current := current |}.

Definition source_package : Package :=
  {| package_id := "source-1"; package_name := "example";
     package_state := "active"; package_owner_org := JStr "org-1" |}.

Definition fresh_store : Store :=
  {| Package_table := [source_package]; PackageExtra_table := [] |}.

Definition world (objects : list HarvestObject) (st : Store) : World :=
  {| harvest_objects := objects; store := st; events := [];
     requests_made := 0; uuids_made := 0 |}.

(** Two harvest objects for the same dataset, the earlier one current. *)
Definition previous : HarvestObject :=
  harvested "object-a" "abc-123" (Some "doc:abc-123") true.

Definition latest : HarvestObject :=
  harvested "object-b" "abc-123" (Some "doc:abc-123") false.

(** An object whose descriptor has no attribution, and one without content. *)
Definition malformed : HarvestObject :=
  harvested "object-u" "una-9" (Some "doc:una-9") false.

Definition blank : HarvestObject :=
  harvested "object-e" "abc-123" None false.

Definition river_object : HarvestObject :=
  harvested "object-r" "riv-7" (Some "doc:riv-7") false.

Definition start : World := world [previous; latest] fresh_store.

(** A store where the name [test-set] is taken by a record without
    identifier, so that creating the dataset fails. *)
Definition taken_store : Store :=
  {| Package_table :=
       [source_package;
        {| package_id := "pkg-old"; package_name := "test-set";
           package_state := "active"; package_owner_org := JStr "org-1" |}];
     PackageExtra_table := [] |}.

(** A store with two records for the identifier [abc-123]. *)
Definition duplicated_store : Store :=
  {| Package_table :=
       [source_package;
        {| package_id := "pkg-test-set"; package_name := "test-set";
           package_state := "active"; package_owner_org := JStr "org-1" |};
        {| package_id := "pkg-copy"; package_name := "test-set-copy";
           package_state := "active"; package_owner_org := JStr "org-1" |}];
     PackageExtra_table :=
       [ {| extra_package_id := "pkg-test-set"; extra_key := "identifier";
            extra_value := "abc-123" |};
         {| extra_package_id := "pkg-copy"; extra_key := "identifier";
            extra_value := "abc-123" |} ] |}.

Definition installation : Externals := externals catalog.

Definition limited_installation : Externals := externals limited_catalog.

End Demo.

(** Further samples: descriptors, responses and a store with one record
    for an identifier, and an installation whose [package_show] refuses
    anonymous callers. *)

Module Samples.

Definition unclassified : json :=
  JObj [("resource", JObj [("id", JStr "ncl-1"); ("name", JStr "Unclassified");
                           ("attribution", JStr "Org")])].

Definition documented : json :=
  JObj [("resource", JObj [("id", JStr "doc-5"); ("name", JStr "Documented");
                           ("attribution", JStr "Org");
                           ("description", JStr "All about it");
                           ("provenance", JStr "official")]);
        ("permalink", JStr "https://data.example.com/d/doc-5");
        ("classification",
         JObj [("domain_metadata",
                JArr [JObj [("key", JStr "Period"); ("value", JStr "2016")]])])].


Definition documented_resource : json :=
  JObj [("id", JStr "doc-5"); ("name", JStr "Documented");
        ("attribution", JStr "Org");
        ("description", JStr "All about it");
        ("provenance", JStr "official")].

(** The record built from [documented]. *)
Definition documented_record : package_dict :=
  {| pkg_title := JStr "Documented"; pkg_name := "documented";
     pkg_url := JStr "https://data.example.com/d/doc-5";
     pkg_notes := JStr "All about it"; pkg_author := JStr "Org";
     pkg_tags := [];
     pkg_extras := [JObj [("key", JStr "Period"); ("value", JStr "2016")]];
     pkg_identifier := JStr "doc-5"; pkg_owner_org := JStr "org-1";
     pkg_resources :=
       [ {| resource_url :=
              "https://data.example.com/api/views/doc-5/rows.csv?accessType=DOWNLOAD";
            resource_format := "CSV" |} ];
     pkg_harvest_source_id := "source-1";
     pkg_harvest_source_url := "https://data.example.com";
     pkg_harvest_source_title := "Example";
     pkg_provenance := Some (JStr "official") |}.

Definition documents : list (string * json) :=
  (("doc:ncl-1", unclassified) :: ("doc:doc-5", documented) :: Demo.documents)%list.

Definition loads (s : string) : result json :=
  match assoc s documents with
  | Some v => Ok v
  | None => Raise ValueError
  end.

Definition restricted_show (ctx : context) (id : string) (st : Store)
    : result json :=
  match ctx_user ctx with
  | Some _ => Demo.show ctx id st
  | None => Raise (ActionError "Not authorized")
  end.

Definition externals (responses : list api_response)
    (show : context -> string -> Store -> result json) : Externals :=
  {| json_loads := loads;
     json_dumps := Demo.dumps;
     munge_title_to_name := Demo.munge;
     munge_tag := Demo.munge;
     hostname := Demo.netloc;
     py_str := fun _ => "?";
     exn_str := fun e => match e with
                         | KeyError k => k
                         | ActionError m => m
                         | _ => "error"
                         end;
     text_column := fun _ => Raise TypeError;
     _get_user_name := "harvest";
     make_uuid := fun n => "object-" ++ decimal n;
     requests_get := fun n _ => nth n responses Undecodable;
     package_show := show;
     package_create := Demo.create;
     package_update := Demo.update |}.

Definition installation : Externals := externals Demo.catalog Demo.show.

Definition restricted : Externals := externals Demo.catalog restricted_show.



Definition unclassified_object : HarvestObject :=
  Demo.harvested "object-n" "ncl-1" (Some "doc:ncl-1") false.

Definition documented_object : HarvestObject :=
  Demo.harvested "object-d" "doc-5" (Some "doc:doc-5") false.

(** An object of a source registered without scheme, so without hostname. *)
Definition hostless_object : HarvestObject :=
  {| ho_id := "object-h"; ho_guid := "abc-123"; ho_job := Demo.example_job;
     ho_source := {| source_id := "source-1"; source_url := "data.example.com";
                     source_title := "Example" |};
     ho_content := Some "doc:abc-123"; ho_current := false |}.

Definition garbled : HarvestObject :=
  Demo.harvested "object-g" "abc-123" (Some "{not json") false.

(** A store with one record for the identifier [abc-123]. *)
Definition imported_store : Store :=
  {| Package_table :=
       [Demo.source_package;
        {| package_id := "pkg-test-set"; package_name := "test-set";
           package_state := "active"; package_owner_org := JStr "org-1" |}];
     PackageExtra_table :=
       [ {| extra_package_id := "pkg-test-set"; extra_key := "identifier";
            extra_value := "abc-123" |} ] |}.

(** The record built from [Demo.test_set] for [Demo.latest]. *)
Definition test_set_record : package_dict :=
  {| pkg_title := JStr "Test Set"; pkg_name := "test-set";
     pkg_url := JStr ""; pkg_notes := JStr ""; pkg_author := JStr "Org";
     pkg_tags := [ {| tag_name := "foo" |} ];
     pkg_extras := [];
     pkg_identifier := JStr "abc-123"; pkg_owner_org := JStr "org-1";
     pkg_resources :=
       [ {| resource_url :=
              "https://data.example.com/api/views/abc-123/rows.csv?accessType=DOWNLOAD";
            resource_format := "CSV" |} ];
     pkg_harvest_source_id := "source-1";
     pkg_harvest_source_url := "https://data.example.com";
     pkg_harvest_source_title := "Example";
     pkg_provenance := None |}.

Definition extras : list HarvestObjectExtra :=
  [ {| object_extra_key := "format"; object_extra_value := Some "csv" |};
    {| object_extra_key := "status"; object_extra_value := Some "delete" |};
    {| object_extra_key := "status"; object_extra_value := Some "new" |} ].

(** An object whose content is the string of length zero. *)
Definition hollow : HarvestObject :=
  Demo.harvested "object-z" "abc-123" (Some "") false.

(** The object a later job of the same source gathers for [Demo.latest]'s
    dataset. *)
Definition later_job : HarvestJob :=
  {| job_id := "job-2"; job_source := Demo.example_source |}.

Definition rerun : HarvestObject :=
  {| ho_id := "object-c"; ho_guid := "abc-123"; ho_job := later_job;
     ho_source := Demo.example_source; ho_content := Some "doc:abc-123";
     ho_current := false |}.

(** A [package_create] that stores the extras it is given, and nothing
    else, as the package's extras: an item [{key, value}] of the record's
    [extras] becomes a row, the record's top-level keys do not. *)
Definition extra_given (id : string) (item : json) : list PackageExtra :=
  match getitem item "key", getitem item "value" with
  | Ok (JStr k), Ok (JStr v) =>
      [ {| extra_package_id := id; extra_key := k; extra_value := v |} ]
  | _, _ => []
  end.

Definition plain_create (ctx : context) (d : package_dict) (st : Store)
    : result json * Store :=
  match find (Demo.named (pkg_name d)) (Package_table st) with
  | Some _ => (Raise (ActionError "That URL is already in use."), st)
  | None =>
      let p := {| package_id := "pkg-" ++ pkg_name d;
                  package_name := pkg_name d;
                  package_state := "active";
                  package_owner_org := pkg_owner_org d |} in
      (Ok (Demo.shown p),
       {| Package_table := (Package_table st ++ [p])%list;
          PackageExtra_table :=
            (PackageExtra_table st
             ++ flat_map (extra_given (package_id p)) (pkg_extras d))%list |})
  end.

Definition plain : Externals :=
  {| json_loads := loads;
     json_dumps := Demo.dumps;
     munge_title_to_name := Demo.munge;
     munge_tag := Demo.munge;
     hostname := Demo.netloc;
     py_str := fun _ => "?";
     exn_str := fun e => match e with
                         | KeyError k => k
                         | ActionError m => m
                         | _ => "error"
                         end;
     text_column := fun _ => Raise TypeError;
     _get_user_name := "harvest";
     make_uuid := fun n => "object-" ++ decimal n;
     requests_get := fun n _ => nth n Demo.catalog Undecodable;
     package_show := Demo.show;
     package_create := plain_create;
     package_update := Demo.update |}.

(** The two records of [Demo.duplicated_store], the copy first. *)
Definition test_set_package : Package :=
  {| package_id := "pkg-test-set"; package_name := "test-set";
     package_state := "active"; package_owner_org := JStr "org-1" |}.

Definition swapped_store : Store :=
  {| Package_table :=
       [Demo.source_package;
        {| package_id := "pkg-copy"; package_name := "test-set-copy";
           package_state := "active"; package_owner_org := JStr "org-1" |};
        test_set_package];
     PackageExtra_table :=
       [ {| extra_package_id := "pkg-test-set"; extra_key := "identifier";
            extra_value := "abc-123" |};
         {| extra_package_id := "pkg-copy"; extra_key := "identifier";
            extra_value := "abc-123" |} ] |}.

(** A store with two records under the identifier [una-9]. *)
Definition duplicated_unattributed : Store :=
  {| Package_table :=
       [Demo.source_package;
        {| package_id := "pkg-una"; package_name := "unattributed";
           package_state := "active"; package_owner_org := JStr "org-1" |};
        {| package_id := "pkg-una-copy"; package_name := "unattributed-copy";
           package_state := "active"; package_owner_org := JStr "org-1" |}];
     PackageExtra_table :=
       [ {| extra_package_id := "pkg-una"; extra_key := "identifier";
            extra_value := "una-9" |};
         {| extra_package_id := "pkg-una-copy"; extra_key := "identifier";
            extra_value := "una-9" |} ] |}.


End Samples.

(** * Properties *)

Example format_positional :
  format "{0}?domains={1}&search_context={1}" ["a"; "b"] [] =
  Ok "a?domains=b&search_context=b".
Proof. reflexivity. Qed.

Example strip_slashes : strip "/"%char "https://data.example.com//" = "https://data.example.com".
Proof. reflexivity. Qed.

(** The comparison in the filter of [import_stage] is decided by Python
    before the query is built. *)
Example current_is_True : py_is (PyAttribute Col_current) PyTrue = false.
Proof. reflexivity. Qed.

Section Properties.

Context {E : Externals}.

(** ** What a computation may do to the world *)

Lemma effects_ret {A} Q (a : A) : effects Q (ret a).
Proof.
  intros w r w' H. inversion H; subst. split; [reflexivity|].
  exists []. rewrite app_nil_r. auto.
Qed.

Lemma effects_lift {A} Q (x : result A) : effects Q (lift x).
Proof.
  intros w r w' H. inversion H; subst. split; [reflexivity|].
  exists []. rewrite app_nil_r. auto.
Qed.

Lemma effects_emit Q e : Q e -> effects Q (emit e).
Proof.
  intros He w r w' H. inversion H; subst. split; [reflexivity|].
  exists [e]. auto.
Qed.

Lemma effects_bind {A B} Q (m : M A) (k : A -> M B) :
  effects Q m -> (forall a, effects Q (k a)) -> effects Q (bind m k).
Proof.
  intros Hm Hk w r w' H. unfold bind in H.
  destruct (m w) as [[a|e] w1] eqn:Em.
  - destruct (Hm _ _ _ Em) as [Ho [es1 [Ee1 F1]]].
    destruct (Hk a _ _ _ H) as [Ho' [es2 [Ee2 F2]]].
    split; [congruence|].
    exists (es1 ++ es2)%list. rewrite Ee2, Ee1, app_assoc.
    split; [reflexivity | apply Forall_app; auto].
  - inversion H; subst. exact (Hm _ _ _ Em).
Qed.

Lemma effects_try_except {A} Q (body : M A) (handler : exn -> M A) :
  effects Q body -> (forall e, effects Q (handler e)) ->
  effects Q (try_except body handler).
Proof.
  intros Hm Hk w r w' H. unfold try_except in H.
  destruct (body w) as [[a|e] w1] eqn:Em.
  - inversion H; subst. exact (Hm _ _ _ Em).
  - destruct (Hm _ _ _ Em) as [Ho [es1 [Ee1 F1]]].
    destruct (Hk e _ _ _ H) as [Ho' [es2 [Ee2 F2]]].
    split; [congruence|].
    exists (es1 ++ es2)%list. rewrite Ee2, Ee1, app_assoc.
    split; [reflexivity | apply Forall_app; auto].
Qed.

Lemma effects_read {A} Q (f : World -> result A) :
  effects Q (fun w => (f w, w)).
Proof.
  intros w r w' H. inversion H; subst. split; [reflexivity|].
  exists []. rewrite app_nil_r. auto.
Qed.

Lemma effects_package_show Q ctx id :
  Q (PackageShow ctx id) -> effects Q (action_package_show ctx id).
Proof.
  intros HQ. unfold action_package_show.
  apply effects_bind; [apply effects_emit; exact HQ|].
  intros _. apply (effects_read Q (fun w => package_show ctx id (store w))).
Qed.

Lemma effects_on_store {A} Q (f : Store -> result A * Store) :
  effects Q (fun w => let (r, st) := f (store w) in (r, set_store st w)).
Proof.
  intros w r w' H. destruct (f (store w)) as [r0 st]. inversion H; subst.
  split; [reflexivity|]. exists []. simpl. rewrite app_nil_r. auto.
Qed.

Lemma effects_package_create Q ctx d :
  Q (PackageCreate ctx d) -> effects Q (action_package_create ctx d).
Proof.
  intros HQ. unfold action_package_create.
  apply effects_bind; [apply effects_emit; exact HQ|].
  intros _. apply (effects_on_store Q (package_create ctx d)).
Qed.

Lemma effects_package_update Q ctx d :
  Q (PackageUpdate ctx d) -> effects Q (action_package_update ctx d).
Proof.
  intros HQ. unfold action_package_update.
  apply effects_bind; [apply effects_emit; exact HQ|].
  intros _. apply (effects_on_store Q (package_update ctx d)).
Qed.

(** Breaks a computation into its steps, by its syntax. *)
Ltac effects_step :=
  lazymatch goal with
  | |- effects _ (ret _) => apply effects_ret
  | |- effects _ (lift _) => apply effects_lift
  | |- effects _ (emit _) => apply effects_emit; solve [auto]
  | |- effects _ (log _ _) => apply effects_emit; solve [auto]
  | |- effects _ (_save_object_error _ _ _) => apply effects_emit; solve [auto]
  | |- effects _ (action_package_show _ _) =>
      apply effects_package_show; solve [auto]
  | |- effects _ (action_package_create _ _) =>
      apply effects_package_create; solve [auto]
  | |- effects _ (action_package_update _ _) =>
      apply effects_package_update; solve [auto]
  | |- effects _ (try_except _ _) => apply effects_try_except; [|intros]
  | |- effects _ (bind _ _) => apply effects_bind; [|intros]
  | |- effects _ (if ?b then _ else _) => destruct b
  | |- effects _ (match ?x with _ => _ end) => destruct x
  end.

Ltac effects_steps := repeat effects_step.

Lemma effects_get_existing_dataset Q guid :
  (forall l m, Q (Log l m)) -> (forall ctx id, Q (PackageShow ctx id)) ->
  effects Q (_get_existing_dataset guid).
Proof.
  intros HL HS. unfold _get_existing_dataset.
  apply effects_bind;
    [apply (effects_read Q (fun w => Ok (query_identifier (store w) guid)))|].
  intros datasets. effects_steps.
Qed.

Lemma effects_build_package_dict Q ctx o :
  (forall c id, Q (PackageShow c id)) ->
  effects Q (_build_package_dict ctx o).
Proof.
  intros HS. unfold _build_package_dict. effects_steps.
Qed.

Ltac effects_import :=
  repeat lazymatch goal with
    | |- effects _ (_get_existing_dataset _) =>
        apply effects_get_existing_dataset; solve [auto]
    | |- effects _ (_build_package_dict _ _) =>
        apply effects_build_package_dict; solve [auto]
    | |- _ => effects_step
    end.

(** ** Running the first steps of a computation *)

Lemma bind_emit {A} e (k : unit -> M A) w :
  bind (emit e) k w = k tt (record e w).
Proof. reflexivity. Qed.

Lemma bind_ret {A B} (a : A) (k : A -> M B) w : bind (ret a) k w = k a w.
Proof. reflexivity. Qed.

Lemma bind_lift_ok {A B} (a : A) (k : A -> M B) w :
  bind (lift (Ok a)) k w = k a w.
Proof. reflexivity. Qed.

Lemma bind_lift_raise {A B} e (k : A -> M B) w :
  bind (lift (Raise e)) k w = (Raise e, w).
Proof. reflexivity. Qed.

Lemma bind_flag_and_add {A} o b (k : unit -> M A) w :
  bind (flag_and_add o b) k w =
  k tt (record (Add (ho_id o))
          (set_objects (put_object (with_current o b) (harvest_objects w)) w)).
Proof. reflexivity. Qed.

(** The query for the previous object never finds one: its second filter
    is the constant [False]. *)
Lemma previous_object_is_none guid w :
  query_first [Guid_eq guid; Constant (py_is (PyAttribute Col_current) PyTrue)] w
  = (Ok None, w).
Proof.
  unfold query_first. do 2 f_equal.
  induction (harvest_objects w) as [|o rows IH]; [reflexivity|].
  simpl. rewrite andb_false_r. exact IH.
Qed.

Lemma bind_previous_object {A} guid (k : option HarvestObject -> M A) w :
  bind (query_first [Guid_eq guid;
                     Constant (py_is (PyAttribute Col_current) PyTrue)]) k w
  = k None w.
Proof. unfold bind. rewrite previous_object_is_none. reflexivity. Qed.

(** ** The table of harvest objects under [put_object] *)

Lemma put_object_keeps a o rows :
  In a rows -> ho_id a <> ho_id o -> In a (put_object o rows).
Proof.
  intros Ha Hne. unfold put_object.
  destruct (existsb (has_id (ho_id o)) rows).
  - apply in_map_iff. exists a. split; [|exact Ha].
    unfold has_id. destruct (String.eqb_spec (ho_id a) (ho_id o)); congruence.
  - apply in_or_app. left. exact Ha.
Qed.

Lemma put_object_holds o rows : In o (put_object o rows).
Proof.
  unfold put_object.
  destruct (existsb (has_id (ho_id o)) rows) eqn:Ex.
  - apply existsb_exists in Ex. destruct Ex as [x [Hx Hid]].
    apply in_map_iff. exists x. rewrite Hid. auto.
  - apply in_or_app. right. left. reflexivity.
Qed.

Lemma put_object_unique o rows row :
  In row (put_object o rows) -> ho_id row = ho_id o -> row = o.
Proof.
  unfold put_object. intros Hin Hid.
  destruct (existsb (has_id (ho_id o)) rows) eqn:Ex.
  - apply in_map_iff in Hin. destruct Hin as [x [Hx Hin]].
    destruct (has_id (ho_id o) x) eqn:Hx'; [congruence|].
    subst x. unfold has_id in Hx'. apply String.eqb_neq in Hx'. contradiction.
  - apply in_app_or in Hin. destruct Hin as [Hin|[Hin|[]]]; [|congruence].
    assert (existsb (has_id (ho_id o)) rows = true); [|congruence].
    apply existsb_exists. exists row. split; [exact Hin|].
    unfold has_id. apply String.eqb_eq. exact Hid.
Qed.

(** ** Import: validation and version bookkeeping *)

Lemma append_empty (s : string) : s ++ "" = s.
Proof. induction s as [|c s IH]; simpl; [|rewrite IH]; reflexivity. Qed.

Lemma empty_content_message id :
  percent_s "Empty content for object %s" id = "Empty content for object " ++ id.
Proof. simpl. rewrite append_empty. reflexivity. Qed.

(** An object with content is flagged current and added before anything
    else is done, and nothing after that touches the harvest objects. *)
Lemma import_stage_bookkeeping o c w r w' :
  ho_content o = Some c ->
  import_stage (Some o) w = (r, w') ->
  harvest_objects w' = put_object (with_current o true) (harvest_objects w) /\
  exists later,
    events w' = (events w ++ entering :: Add (ho_id o) :: later)%list /\
    Forall (fun e => forall id, e <> Add id) later.
Proof.
  intros Hc H. unfold import_stage, log in H. rewrite Hc in H.
  rewrite bind_emit, bind_previous_object, bind_ret, bind_flag_and_add in H.
  match type of H with
  | ?m _ = _ =>
      assert (Hrest : effects (fun e => forall id, e <> Add id) m)
  end.
  { assert (forall l m id, Log l m <> Add id) by discriminate.
    assert (forall c i id, PackageShow c i <> Add id) by discriminate.
    assert (forall c d id, PackageCreate c d <> Add id) by discriminate.
    assert (forall c d id, PackageUpdate c d <> Add id) by discriminate.
    assert (forall m i s id, SaveObjectError m i s <> Add id) by discriminate.
    effects_import. }
  destruct (Hrest _ _ _ H) as [Ho [es [He F]]].
  split; [exact Ho|].
  exists es. split; [|exact F].
  rewrite He. simpl. rewrite <- !app_assoc. reflexivity.
Qed.

(** C1 (the code departs from it).  When object [a] is the current one for
    a guid and object [b] for the same guid is imported, [b] is flagged
    current but [a] is not flagged back: the query meant to find [a]
    filters on [HarvestObject.current is True], which is [False], so it
    finds nothing.  The guid then has two current objects. *)
Theorem import_stage_leaves_previous_current
    (a b : HarvestObject) (c : string) (w : World) (r : result bool) (w' : World) :
  In a (harvest_objects w) ->
  ho_current a = true ->
  ho_guid a = ho_guid b ->
  ho_id a <> ho_id b ->
  ho_content b = Some c ->
  import_stage (Some b) w = (r, w') ->
  In a (harvest_objects w') /\
  In (with_current b true) (harvest_objects w') /\
  ~ one_current_per_guid (harvest_objects w').
Proof.
  intros Ha Hcur Hg Hne Hc H.
  destruct (import_stage_bookkeeping b c w r w' Hc H) as [Ho _].
  rewrite Ho.
  assert (Ha' : In a (put_object (with_current b true) (harvest_objects w)))
    by (apply put_object_keeps; assumption).
  assert (Hb' : In (with_current b true)
                   (put_object (with_current b true) (harvest_objects w)))
    by apply put_object_holds.
  repeat split; [exact Ha' | exact Hb' |].
  intros Hone. apply Hne.
  exact (Hone a (with_current b true) Ha' Hb' Hg Hcur eq_refl).
Qed.

(** ** The package builder *)

Lemma bind_bind {A B C} (m : M A) (f : A -> M B) (k : B -> M C) w :
  bind (bind m f) k w = bind m (fun a => bind (f a) k) w.
Proof.
  unfold bind. destruct (m w) as [[a|e] w1]; reflexivity.
Qed.

Lemma bind_package_show {A} ctx id (k : json -> M A) w :
  bind (action_package_show ctx id) k w =
  match package_show ctx id (store w) with
  | Ok shown => k shown (record (PackageShow ctx id) w)
  | Raise e => (Raise e, record (PackageShow ctx id) w)
  end.
Proof.
  unfold action_package_show, bind, emit. simpl.
  destruct (package_show ctx id (store w)); reflexivity.
Qed.

Lemma download_url domain id :
  format DOWNLOAD_ENDPOINT_TEMPLATE [] [("domain", domain); ("resource_id", id)]
  = Ok ("https://" ++ domain ++ "/api/views/" ++ id
        ++ "/rows.csv?accessType=DOWNLOAD").
Proof. reflexivity. Qed.

Lemma rmap_Forall2 {A B} (f : A -> result B) l bs :
  rmap f l = Ok bs -> Forall2 (fun a b => f a = Ok b) l bs.
Proof.
  revert bs. induction l as [|a l IH]; simpl; intros bs H.
  - inversion H. constructor.
  - destruct (f a) as [b|e] eqn:Ea; [|discriminate].
    destruct (rmap f l) as [bs'|e]; [|discriminate].
    inversion H; subst. constructor; auto.
Qed.

(** Runs the pure steps at the head of the computation in [H]; a step that
    raises ends a computation known to return. *)
Ltac lifts_in H :=
  repeat match type of H with
    | bind (lift ?x) _ _ = (Ok _, _) =>
        let Step := fresh "Step" in
        destruct x eqn:Step;
        [ rewrite bind_lift_ok in H
        | rewrite bind_lift_raise in H; discriminate H ]
    end.

(** What a successful build read from the descriptor and made of it. *)
Lemma build_package_dict_ok ctx o w pd w' :
  _build_package_dict ctx o w = (Ok pd, w') ->
  exists res classification tags domain_tags munged,
    loads_content o = Ok res /\
    descriptor_id res = Ok (pkg_identifier pd) /\
    getitem res "classification" = Ok classification /\
    get classification "tags" (JArr []) = Ok tags /\
    get classification "domain_tags" (JArr []) = Ok domain_tags /\
    rbind (iter_sum tags domain_tags) (rmap munge_tag) = Ok munged /\
    pkg_tags pd = map (fun t => {| tag_name := t |}) munged /\
    pkg_resources pd =
      [ {| resource_url :=
             "https://"
             ++ text_of_hostname (hostname (source_url (ho_source o)))
             ++ "/api/views/" ++ text (pkg_identifier pd)
             ++ "/rows.csv?accessType=DOWNLOAD";
           resource_format := "CSV" |} ] /\
    w' = record (PackageShow ctx (source_id (ho_source o))) w.
Proof.
  intros H. unfold _build_package_dict in H.
  rewrite bind_package_show in H.
  destruct (package_show ctx (source_id (ho_source o)) (store w))
    as [source_dataset|e]; [|discriminate H].
  lifts_in H.
  match type of H with
  | context [if truthy ?declared then _ else _] => destruct (truthy declared)
  end;
    [rewrite bind_bind in H; lifts_in H|];
    rewrite bind_ret, download_url, bind_lift_ok in H.
  all: inversion H; subst; clear H; simpl.
  all: do 5 eexists.
  all: split; [reflexivity|].
  all: split;
    [ unfold descriptor_id;
      match goal with
      | Hr : getitem _ "resource" = Ok _ |- _ => rewrite Hr
      end; eassumption |].
  all: do 3 (split; [eassumption|]).
  all: split;
    [ match goal with
      | Hs : iter_sum _ _ = Ok _ |- _ => rewrite Hs
      end; simpl; eassumption |].
  all: repeat split; reflexivity.
Qed.

Ltac lifts_in_goal :=
  repeat match goal with
    | |- context [bind (lift ?x) _ _] =>
        destruct x;
        [ rewrite !bind_lift_ok | rewrite !bind_lift_raise; reflexivity ]
    end.

Lemma build_package_dict_eq ctx o w :
  _build_package_dict ctx o w =
  (built ctx o (store w), record (PackageShow ctx (source_id (ho_source o))) w).
Proof.
  unfold built, _build_package_dict.
  rewrite !bind_package_show. simpl.
  destruct (package_show ctx (source_id (ho_source o)) (store w));
    [|reflexivity].
  lifts_in_goal.
  match goal with
  | |- context [if truthy ?declared then _ else _] => destruct (truthy declared)
  end;
    [rewrite !bind_bind; lifts_in_goal|];
    rewrite !bind_ret; lifts_in_goal; reflexivity.
Qed.

Lemma built_ok ctx o st pd :
  built ctx o st = Ok pd ->
  exists w', _build_package_dict ctx o (set_store st
               {| harvest_objects := []; store := st; events := [];
                  requests_made := 0; uuids_made := 0 |}) = (Ok pd, w').
Proof.
  intros H. rewrite build_package_dict_eq. simpl. rewrite H. eauto.
Qed.

Lemma built_same_source ctx o st st' :
  package_show ctx (source_id (ho_source o)) st'
  = package_show ctx (source_id (ho_source o)) st ->
  built ctx o st' = built ctx o st.
Proof.
  intros H. unfold built, _build_package_dict.
  rewrite !bind_package_show. simpl. rewrite H.
  destruct (package_show ctx (source_id (ho_source o)) st); [|reflexivity].
  lifts_in_goal.
  match goal with
  | |- context [if truthy ?declared then _ else _] => destruct (truthy declared)
  end;
    [rewrite !bind_bind; lifts_in_goal|];
    rewrite !bind_ret; lifts_in_goal; reflexivity.
Qed.

(** C8.  For a descriptor the builder accepts, the record has exactly one
    resource: its URL is the download template filled with the hostname of
    the harvest source's URL and the descriptor's identifier, that is
    [https://{hostname}/api/views/{id}/rows.csv?accessType=DOWNLOAD], and
    its format is [CSV]. *)
Theorem build_package_dict_download_resource
    (ctx : context) (o : HarvestObject) (w : World) (pd : package_dict)
    (w' : World) (res : json) (h id : string) :
  _build_package_dict ctx o w = (Ok pd, w') ->
  loads_content o = Ok res ->
  descriptor_id res = Ok (JStr id) ->
  hostname (source_url (ho_source o)) = Some h ->
  pkg_resources pd =
    [ {| resource_url :=
           "https://" ++ h ++ "/api/views/" ++ id
           ++ "/rows.csv?accessType=DOWNLOAD";
         resource_format := "CSV" |} ].
Proof.
  intros Hb Hres Hid Hh.
  destruct (build_package_dict_ok _ _ _ _ _ Hb)
    as (res' & cl & ts & ds & munged & Hres' & Hid' & _ & _ & _ & _ & _ & Hr & _).
  rewrite Hres in Hres'. inversion Hres'; subst res'.
  rewrite Hid in Hid'. inversion Hid' as [Hpd].
  rewrite Hr, <- Hpd, Hh. reflexivity.
Qed.

Lemma Forall2_tag_names (f : json -> result string) l names :
  Forall2 (fun a b => f a = Ok b) l names ->
  Forall2 (fun a d => f a = Ok (tag_name d)) l
          (map (fun t => {| tag_name := t |}) names).
Proof.
  induction 1; simpl; constructor; auto.
Qed.

(** C9, as the code has it.  The tags of the record are the classification's
    [tags] followed by its [domain_tags], each passed through [munge_tag],
    in order and one for one: nothing is removed, so a tag listed twice
    appears twice. *)
Theorem build_package_dict_tags_concatenated
    (ctx : context) (o : HarvestObject) (w : World) (pd : package_dict)
    (w' : World) (res classification : json) (ts ds : list json) :
  _build_package_dict ctx o w = (Ok pd, w') ->
  loads_content o = Ok res ->
  getitem res "classification" = Ok classification ->
  get classification "tags" (JArr []) = Ok (JArr ts) ->
  get classification "domain_tags" (JArr []) = Ok (JArr ds) ->
  Forall2 (fun t d => munge_tag t = Ok (tag_name d)) (ts ++ ds)%list (pkg_tags pd)
  /\ length (pkg_tags pd) = length ts + length ds.
Proof.
  intros Hb Hres Hcl Hts Hds.
  destruct (build_package_dict_ok _ _ _ _ _ Hb)
    as (res' & cl & tags & domain_tags & munged
        & Hres' & _ & Hcl' & Hts' & Hds' & Hm & Htags & _).
  rewrite Hres in Hres'. inversion Hres'; subst res'.
  rewrite Hcl in Hcl'. inversion Hcl'; subst cl.
  rewrite Hts in Hts'. inversion Hts'; subst tags.
  rewrite Hds in Hds'. inversion Hds'; subst domain_tags.
  simpl in Hm. apply rmap_Forall2 in Hm.
  assert (F : Forall2 (fun t d => munge_tag t = Ok (tag_name d))
                      (ts ++ ds)%list (pkg_tags pd))
    by (rewrite Htags; apply Forall2_tag_names; exact Hm).
  split; [exact F|].
  rewrite <- (Forall2_length F). apply length_app.
Qed.

(** *** Descriptors without a required field *)

Lemma built_raises_without_required ctx o res st :
  loads_content o = Ok res ->
  lacks_required res = true ->
  exists e, built ctx o st = Raise e.
Proof.
  intros Hres Hlack.
  destruct (built ctx o st) as [pd|e] eqn:Hb; [|eauto].
  exfalso. apply built_ok in Hb. destruct Hb as [w' Hb].
  unfold _build_package_dict in Hb. rewrite bind_package_show in Hb.
  match type of Hb with
  | context [package_show ?c ?i ?s] =>
      destruct (package_show c i s); [|discriminate Hb]
  end.
  rewrite Hres in Hb. lifts_in Hb.
  match goal with
  | Hs : Ok res = Ok _ |- _ => inversion Hs; subst; clear Hs
  end.
  unfold lacks_required, required_fields, has_field in Hlack. simpl in Hlack.
  repeat match goal with
         | Hs : getitem _ _ = Ok _ |- _ => rewrite Hs in Hlack; clear Hs
         end.
  discriminate Hlack.
Qed.

(** ** The existence check *)

Lemma anomaly_message guid :
  format "Found more than one dataset with the same guid: {0}" [guid] []
  = Ok ("Found more than one dataset with the same guid: " ++ guid).
Proof. unfold format. simpl. rewrite append_empty. reflexivity. Qed.

Lemma get_existing_dataset_none guid w :
  query_identifier (store w) guid = [] ->
  _get_existing_dataset guid w = (Ok None, w).
Proof.
  intros Hq. unfold _get_existing_dataset, bind at 1. rewrite Hq. reflexivity.
Qed.

Lemma get_existing_dataset_found guid w first rest :
  query_identifier (store w) guid = first :: rest ->
  _get_existing_dataset guid w =
  (match package_show empty_context first (store w) with
   | Ok shown => Ok (Some shown)
   | Raise e => Raise e
   end,
   record (PackageShow empty_context first)
          (match rest with
           | [] => w
           | _ => record (anomaly guid) w
           end)).
Proof.
  intros Hq. unfold _get_existing_dataset, bind at 1. rewrite Hq.
  destruct rest as [|second more]; simpl length.
  - change (Nat.ltb 1 1) with false. cbv iota.
    rewrite bind_ret, bind_package_show.
    destruct (package_show empty_context first (store w)); reflexivity.
  - change (Nat.ltb 1 (S (S (length more)))) with true. cbv iota.
    rewrite anomaly_message.
    unfold bind, lift, log, emit, action_package_show, ret. simpl.
    destruct (package_show empty_context first (store w)); reflexivity.
Qed.

(** ** Reconciliation *)

Lemma existing_message t :
  format "Existing dataset {}" [t] [] = Ok ("Existing dataset " ++ t).
Proof. unfold format. simpl. rewrite append_empty. reflexivity. Qed.

Lemma new_message t :
  format "New dataset {}" [t] [] = Ok ("New dataset " ++ t).
Proof. unfold format. simpl. rewrite append_empty. reflexivity. Qed.

Lemma updating_message id e :
  format "Error updating package for {}: {}" [id; e] []
  = Ok ("Error updating package for " ++ id ++ ": " ++ e).
Proof. unfold format. simpl. rewrite append_empty. reflexivity. Qed.

Lemma creating_message id e :
  format "Error creating package for {}: {}" [id; e] []
  = Ok ("Error creating package for " ++ id ++ ": " ++ e).
Proof. unfold format. simpl. rewrite append_empty. reflexivity. Qed.

Lemma built_identifier ctx o st pd res :
  built ctx o st = Ok pd -> loads_content o = Ok res ->
  exists resource,
    getitem res "resource" = Ok resource /\
    getitem resource "id" = Ok (pkg_identifier pd).
Proof.
  intros Hb Hres. apply built_ok in Hb. destruct Hb as [w' Hb].
  destruct (build_package_dict_ok _ _ _ _ _ Hb)
    as (res' & _ & _ & _ & _ & Hres' & Hid & _).
  rewrite Hres in Hres'. inversion Hres'; subst res'.
  unfold descriptor_id in Hid.
  destruct (getitem res "resource") as [resource|e]; [|discriminate Hid].
  eauto.
Qed.

(** [import_stage] on an object with content, step by step. *)
Lemma import_stage_eq o c w :
  ho_content o = Some c ->
  import_stage (Some o) w =
  match json_loads c with
  | Raise e => (Raise e, bookkept o w)
  | Ok res =>
      match _get_existing_dataset (ho_guid o) (bookkept o w) with
      | (Raise e, w2) => (Raise e, w2)
      | (Ok existing_dataset, w2) =>
          let w3 :=
            record (PackageShow base_context (source_id (ho_source o))) w2 in
          match built base_context o (store w2) with
          | Raise e => (Raise e, w3)
          | Ok pd => reconciled o pd (existing existing_dataset) w3
          end
      end
  end.
Proof.
  intros Hc. unfold import_stage, log. rewrite Hc.
  rewrite bind_emit, bind_previous_object, bind_ret, bind_flag_and_add.
  change (record (Add (ho_id o)) _) with (bookkept o w).
  destruct (json_loads c) as [res|e] eqn:Hl;
    [rewrite bind_lift_ok | rewrite bind_lift_raise; reflexivity].
  unfold bind at 1.
  destruct (_get_existing_dataset (ho_guid o) (bookkept o w))
    as [[existing_dataset|e] w2]; [|reflexivity].
  unfold bind at 1. rewrite build_package_dict_eq.
  destruct (built base_context o (store w2)) as [pd|e] eqn:Hb; [|reflexivity].
  assert (Hres : loads_content o = Ok res)
    by (unfold loads_content; rewrite Hc; exact Hl).
  destruct (built_identifier _ _ _ _ _ Hb Hres) as [resource [Hr Hid]].
  cbv zeta. unfold reconciled.
  destruct (existing existing_dataset).
  - rewrite Hr, bind_lift_ok, Hid, bind_lift_ok, existing_message, bind_lift_ok.
    rewrite bind_emit. unfold try_except, action_package_update.
    rewrite bind_bind, bind_emit. unfold bind at 1. simpl store.
    destruct (package_update base_context pd (store w2)) as [[shown|e] st].
    + reflexivity.
    + rewrite updating_message, bind_lift_ok. reflexivity.
  - rewrite Hr, bind_lift_ok, Hid, bind_lift_ok, new_message, bind_lift_ok.
    rewrite bind_emit. unfold try_except, action_package_create.
    rewrite bind_bind, bind_emit. unfold bind at 1. simpl store.
    destruct (package_create base_context pd (store w2)) as [[shown|e] st].
    + reflexivity.
    + rewrite creating_message, bind_lift_ok. reflexivity.
Qed.

Lemma events_bookkept o w :
  events (bookkept o w) = (events w ++ [entering; Add (ho_id o)])%list.
Proof. simpl. rewrite <- app_assoc. reflexivity. Qed.

Lemma store_bookkept o w : store (bookkept o w) = store w.
Proof. reflexivity. Qed.

(** C7, as the code has it.  An import attempt without a harvest object,
    or with an object whose content is [None] (the case the source reports
    as "Empty content"), is rejected: [import_stage] returns [False] after
    logging the error, respectively recording it against the object, as its
    only action; the harvest objects and the package store are untouched:
    no version bookkeeping, no build, no reconcile.  An object whose content
    is a string is not rejected at this point, whatever the string, the one
    of length zero included: it is flagged current and added, and a content
    that [json.loads] refuses makes [import_stage] raise. *)
Theorem import_stage_rejects_absent_or_empty
    (harvest_object : option HarvestObject) (w : World) :
  exists r w',
    import_stage harvest_object w = (r, w') /\
    match harvest_object with
    | None =>
        r = Ok false /\
        harvest_objects w' = harvest_objects w /\
        store w' = store w /\
        events w'
        = (events w ++ [entering; Log ERROR "No harvest object received"])%list
    | Some o =>
        match ho_content o with
        | None =>
            r = Ok false /\
            harvest_objects w' = harvest_objects w /\
            store w' = store w /\
            events w'
            = (events w
               ++ [entering;
                   SaveObjectError ("Empty content for object " ++ ho_id o)
                                   (ho_id o) "Import"])%list
        | Some c =>
            harvest_objects w'
            = put_object (with_current o true) (harvest_objects w) /\
            (exists later,
               events w' = (events w ++ entering :: Add (ho_id o) :: later)%list) /\
            (forall e, json_loads c = Raise e -> r = Raise e)
        end
    end.
Proof.
  destruct harvest_object as [o|].
  2:{ exists (Ok false).
      exists (record (Log ERROR "No harvest object received") (record entering w)).
      split; [reflexivity|]. simpl. rewrite <- app_assoc. repeat split. }
  destruct (ho_content o) as [c|] eqn:Hc.
  - destruct (import_stage (Some o) w) as [r w'] eqn:H.
    exists r, w'. split; [reflexivity|].
    destruct (import_stage_bookkeeping o c w r w' Hc H) as [Ho [later [He _]]].
    split; [exact Ho|]. split; [exists later; exact He|].
    intros e Hl. rewrite (import_stage_eq o c w Hc), Hl in H.
    inversion H. reflexivity.
  - exists (Ok false).
    exists (record (SaveObjectError ("Empty content for object " ++ ho_id o)
                                    (ho_id o) "Import") (record entering w)).
    split.
    + unfold import_stage. rewrite Hc, empty_content_message. reflexivity.
    + simpl. rewrite <- app_assoc. repeat split.
Qed.




Lemma get_existing_dataset_store guid w r w2 :
  _get_existing_dataset guid w = (r, w2) -> store w2 = store w.
Proof.
  destruct (query_identifier (store w) guid) as [|first rest] eqn:Hq.
  - rewrite (get_existing_dataset_none _ _ Hq). intros H.
    inversion H. reflexivity.
  - rewrite (get_existing_dataset_found _ _ _ _ Hq). intros H.
    inversion H. destruct rest; reflexivity.
Qed.

(** Which exception the builder raises for a descriptor without a required
    field, when nothing else goes wrong before the lookup that fails. *)
Lemma built_first_missing ctx o res st source_dataset fields :
  loads_content o = Ok res ->
  lacks_required res = true ->
  package_show ctx (source_id (ho_source o)) st = Ok (JObj source_dataset) ->
  getitem res "resource" = Ok (JObj fields) ->
  (forall title, assoc "name" fields = Some title ->
     exists name, munge_title_to_name title = Ok name) ->
  built ctx o st = Raise (KeyError (first_missing fields)).
Proof.
  intros Hres Hlack Hshow Hr Hm.
  unfold lacks_required, required_fields, has_field in Hlack.
  rewrite Hr in Hlack. simpl in Hlack.
  unfold built, _build_package_dict, first_missing.
  rewrite bind_package_show. simpl store. rewrite Hshow.
  unfold get at 1. destruct (assoc "owner_org" source_dataset);
    rewrite bind_lift_ok, Hres, bind_lift_ok, Hr, bind_lift_ok.
  all: unfold getitem at 1.
  all: destruct (assoc "name" fields) as [title|] eqn:Hn;
    [|rewrite bind_lift_raise; reflexivity].
  all: destruct (Hm title eq_refl) as [name Hname].
  all: rewrite bind_lift_ok, Hname, bind_lift_ok.
  all: destruct res; try discriminate Hr.
  all: unfold get at 1;
    match goal with
    | |- context [assoc "permalink" ?m] => destruct (assoc "permalink" m)
    end; rewrite bind_lift_ok.
  all: unfold get at 1; destruct (assoc "description" fields);
    rewrite bind_lift_ok.
  all: unfold getitem at 1.
  all: destruct (assoc "attribution" fields) as [author|] eqn:Ha;
    [|rewrite bind_lift_raise; reflexivity].
  all: rewrite bind_lift_ok.
  all: unfold getitem at 1.
  all: destruct (assoc "id" fields) as [identifier|] eqn:Hi;
    [|rewrite bind_lift_raise; reflexivity].
  all: discriminate Hlack.
Qed.

(** C2, as the code has it.  For a descriptor lacking [resource.name],
    [resource.id] or [resource.attribution] the builder raises and returns
    no record, in any context and world, having done nothing but show the
    harvest source.  When the harvest source is shown as a dict, the
    descriptor's [resource] is an object and a name that is present can be
    munged, the exception is the [KeyError] of the first field that is
    missing, in the order [name], [attribution], [id]; in every other case
    the builder raises as well.
    [import_stage] does not catch it: unless the existence check itself
    raises first (then that exception leaves), the builder's exception is
    the one that leaves [import_stage] to the caller.  It is not swallowed,
    [import_stage] does not return [False], no error is recorded against
    the object and neither [package_create] nor [package_update] is
    called. *)
Theorem malformed_descriptor_raises_through_import
    (o : HarvestObject) (c : string) (res : json) (w : World) :
  ho_content o = Some c ->
  json_loads c = Ok res ->
  lacks_required res = true ->
  (forall ctx w0, exists e,
     _build_package_dict ctx o w0
     = (Raise e, record (PackageShow ctx (source_id (ho_source o))) w0) /\
     built ctx o (store w0) = Raise e) /\
  (forall ctx st source_dataset fields,
     package_show ctx (source_id (ho_source o)) st = Ok (JObj source_dataset) ->
     getitem res "resource" = Ok (JObj fields) ->
     (forall title, assoc "name" fields = Some title ->
        exists name, munge_title_to_name title = Ok name) ->
     built ctx o st = Raise (KeyError (first_missing fields))) /\
  exists e w' es,
    import_stage (Some o) w = (Raise e, w') /\
    events w' = (events w ++ es)%list /\
    Forall (fun ev => reconciles ev = false /\ records_object_error ev = false)
           es /\
    match fst (_get_existing_dataset (ho_guid o) (bookkept o w)) with
    | Ok _ => built base_context o (store w) = Raise e
    | Raise e' => e = e'
    end.
Proof.
  intros Hc Hl Hlack.
  assert (Hres : loads_content o = Ok res)
    by (unfold loads_content; rewrite Hc; exact Hl).
  split; [|split].
  - intros ctx w0. rewrite build_package_dict_eq.
    destruct (built_raises_without_required ctx o res (store w0) Hres Hlack)
      as [e He].
    rewrite He. eauto.
  - intros ctx st source_dataset fields Hshow Hr Hm.
    exact (built_first_missing ctx o res st source_dataset fields
             Hres Hlack Hshow Hr Hm).
  - rewrite (import_stage_eq o c w Hc), Hl.
    destruct (_get_existing_dataset (ho_guid o) (bookkept o w))
      as [[existing_dataset|e] w2] eqn:Hg.
    + assert (Hq : effects
                (fun ev => reconciles ev = false /\ records_object_error ev = false)
                (_get_existing_dataset (ho_guid o)))
        by (apply effects_get_existing_dataset; intros; split; reflexivity).
      destruct (Hq _ _ _ Hg) as [_ [es [He F]]].
      pose proof (get_existing_dataset_store _ _ _ _ Hg) as Hst.
      rewrite store_bookkept in Hst.
      destruct (built_raises_without_required base_context o res (store w2)
                  Hres Hlack) as [e Hb].
      cbv zeta. rewrite Hb.
      exists e. eexists. eexists. split; [reflexivity|]. split; [|split].
      * simpl. rewrite He, events_bookkept, <- !app_assoc. reflexivity.
      * simpl. repeat (constructor; [split; reflexivity|]).
        apply Forall_app. split; [exact F|].
        repeat constructor.
      * simpl. rewrite <- Hst. exact Hb.
    + assert (Hq : effects
                (fun ev => reconciles ev = false /\ records_object_error ev = false)
                (_get_existing_dataset (ho_guid o)))
        by (apply effects_get_existing_dataset; intros; split; reflexivity).
      destruct (Hq _ _ _ Hg) as [_ [es [He F]]].
      exists e, w2. eexists. split; [reflexivity|]. split; [|split].
      * rewrite He, events_bookkept, <- !app_assoc. reflexivity.
      * simpl. repeat (constructor; [split; reflexivity|]). exact F.
      * reflexivity.
Qed.

(** C6, as the code has it.  When the existence check finds more than one
    active record with the object's guid as its [identifier] extra,
    [import_stage] logs the anomaly and shows the first match.  When that
    record is shown as a dict that is not empty and the builder returns a
    record, the import goes on as an update: it logs the existing dataset
    and calls [package_update] once, with the built record, and never
    [package_create]; an exception of [package_update] is caught and
    recorded against the object.  The first match is used for the show
    alone: the built record [pd] is made from the harvest object and the
    harvest source, carries no id, and is what [package_update] is given,
    whichever record came first. *)
Theorem import_stage_anomaly_updates_first_match
    (o : HarvestObject) (c : string) (res : json) (w : World)
    (first second : string) (more : list string) (shown : json)
    (pd : package_dict) :
  ho_content o = Some c ->
  json_loads c = Ok res ->
  query_identifier (store w) (ho_guid o) = first :: second :: more ->
  package_show empty_context first (store w) = Ok shown ->
  truthy shown = true ->
  built base_context o (store w) = Ok pd ->
  exists w',
    import_stage (Some o) w
    = (Ok (match fst (package_update base_context pd (store w)) with
           | Ok _ => true
           | Raise _ => false
           end), w') /\
    store w' = snd (package_update base_context pd (store w)) /\
    events w'
    = (events w
       ++ [entering; Add (ho_id o);
           anomaly (ho_guid o);
           PackageShow empty_context first;
           PackageShow base_context (source_id (ho_source o));
           Log DEBUG ("Existing dataset " ++ text (pkg_identifier pd));
           PackageUpdate base_context pd]
       ++ match fst (package_update base_context pd (store w)) with
          | Ok _ => []
          | Raise e =>
              [SaveObjectError
                 ("Error updating package for " ++ ho_id o ++ ": " ++ exn_str e)
                 (ho_id o) "Import"]
          end)%list.
Proof.
  intros Hc Hl Hq Hs Ht Hb.
  rewrite (import_stage_eq o c w Hc), Hl.
  rewrite (get_existing_dataset_found _ (bookkept o w) first (second :: more) Hq).
  rewrite store_bookkept, Hs. cbv zeta.
  change (store (record _ (record _ (bookkept o w)))) with (store w).
  rewrite Hb. unfold reconciled, existing. rewrite Ht.
  change (store (record _ (record _ (record _ (bookkept o w)))))
    with (store w).
  destruct (package_update base_context pd (store w)) as [[x|e] st];
    eexists; (split; [reflexivity|]); (split; [reflexivity|]);
    simpl; rewrite <- !app_assoc; reflexivity.
Qed.

Lemma built_same_descriptor ctx o o2 st :
  same_descriptor o o2 -> built ctx o2 st = built ctx o st.
Proof.
  intros (_ & Hc & Hs & Hj).
  unfold built, _build_package_dict, loads_content.
  rewrite Hc, Hs, Hj. reflexivity.
Qed.

Lemma stored_under_listed st guid :
  stored_under st guid ->
  exists first rest, query_identifier st guid = first :: rest.
Proof.
  intros (p & x & Hp & Hx & Hfk & Hk & Hv & Hs).
  assert (Hin : In (package_id p) (query_identifier st guid)).
  { unfold query_identifier, join_Package_PackageExtra.
    apply in_map_iff. exists (p, x). split; [reflexivity|].
    repeat (apply filter_In; split); simpl;
      try (apply String.eqb_eq; assumption).
    apply in_prod_iff. split; assumption. }
  destruct (query_identifier st guid) as [|first rest]; [destruct Hin|].
  eauto.
Qed.

(** C4, as the code has it.  Let the import of a harvest object with no
    record under its guid succeed: it created a record.  The harvester
    hands [package_create] the identifier as a top-level key of the record,
    not as an extra, and looks for existing records by their [identifier]
    extra.  So the second import takes the update path on one condition,
    which lies with the repository: that the store the first import left
    holds an active package with the guid as its [identifier] extra, whose
    listed records can be shown, the harvest source's dataset being shown
    as before.  Then the import of an object with the same content, the
    same one or the one a later job gathers, finds a record under the guid,
    calls [package_update] once with the record the first import created
    from, and does not call [package_create]. *)
Theorem second_import_takes_update_path
    (o o2 : HarvestObject) (c : string) (res : json) (w w1 : World) :
  ho_content o = Some c ->
  json_loads c = Ok res ->
  same_descriptor o o2 ->
  query_identifier (store w) (ho_guid o) = [] ->
  import_stage (Some o) w = (Ok true, w1) ->
  stored_under (store w1) (ho_guid o) ->
  shown_when_listed (store w1) (ho_guid o) ->
  package_show base_context (source_id (ho_source o)) (store w1)
  = package_show base_context (source_id (ho_source o)) (store w) ->
  exists pd,
    built base_context o (store w) = Ok pd /\
    store w1 = snd (package_create base_context pd (store w)) /\
    events w1
    = (events w
       ++ [entering; Add (ho_id o);
           PackageShow base_context (source_id (ho_source o));
           Log DEBUG ("New dataset " ++ text (pkg_identifier pd));
           PackageCreate base_context pd])%list /\
    exists first rest r2 w2 es,
      query_identifier (store w1) (ho_guid o2) = first :: rest /\
      import_stage (Some o2) w1 = (r2, w2) /\
      (r2 = Ok true \/ r2 = Ok false) /\
      events w2 = (events w1 ++ es)%list /\
      In (PackageShow empty_context first) es /\
      filter reconciles es = [PackageUpdate base_context pd].
Proof.
  intros Hc Hl Hsame Hnew H1 Hstored Hshown Ks.
  rewrite (import_stage_eq o c w Hc), Hl in H1.
  rewrite (get_existing_dataset_none _ (bookkept o w) Hnew) in H1.
  rewrite store_bookkept in H1. cbv zeta in H1.
  destruct (built base_context o (store w)) as [pd|e] eqn:Hb;
    [|discriminate H1].
  exists pd. split; [reflexivity|].
  unfold reconciled, existing in H1.
  change (store (record _ (bookkept o w))) with (store w) in H1.
  destruct (package_create base_context pd (store w)) as [[x|e] st] eqn:Hcreate;
    [|discriminate H1].
  inversion H1; subst w1; clear H1.
  split; [reflexivity|].
  split; [simpl; rewrite <- !app_assoc; reflexivity|].
  simpl store in Hstored, Hshown, Ks.
  match goal with
  | |- context [import_stage (Some o2) ?w] => set (w1 := w)
  end.
  assert (Hst1 : store w1 = st) by reflexivity.
  destruct Hsame as (Hg2 & Hc2 & Hs2 & Hj2).
  rewrite Hg2.
  destruct (stored_under_listed st (ho_guid o) Hstored) as (first & rest & Hq).
  destruct (Hshown first) as (shown & Hs & Ht);
    [rewrite Hq; left; reflexivity|].
  assert (Hb2 : built base_context o2 st = Ok pd).
  { rewrite (built_same_descriptor base_context o o2 st)
      by (repeat split; assumption).
    rewrite (built_same_source _ _ _ _ Ks). exact Hb. }
  exists first, rest.
  assert (Hc2' : ho_content o2 = Some c) by congruence.
  rewrite (import_stage_eq o2 c w1 Hc2'), Hl.
  rewrite (get_existing_dataset_found (ho_guid o2) (bookkept o2 w1) first rest)
    by (rewrite Hg2, store_bookkept, Hst1; exact Hq).
  rewrite store_bookkept, Hst1, Hs. cbv zeta.
  destruct rest as [|another more].
  - change (store (record _ (bookkept o2 w1))) with st.
    rewrite Hb2. unfold reconciled, existing. rewrite Ht.
    change (store (record _ (record _ (bookkept o2 w1)))) with st.
    destruct (package_update base_context pd st) as [[y|e] st'];
      eexists; eexists; eexists;
      (split; [exact Hq|]); (split; [reflexivity|]);
      (split; [auto|]);
      (split; [simpl; rewrite <- !app_assoc; simpl; reflexivity|]);
      simpl; auto 10.
  - change (store (record _ (record _ (bookkept o2 w1)))) with st.
    rewrite Hb2. unfold reconciled, existing. rewrite Ht.
    change (store (record _ (record _ (record _ (bookkept o2 w1)))))
      with st.
    destruct (package_update base_context pd st) as [[y|e] st'];
      eexists; eexists; eexists;
      (split; [exact Hq|]); (split; [reflexivity|]);
      (split; [auto|]);
      (split; [simpl; rewrite <- !app_assoc; simpl; reflexivity|]);
      simpl; auto 10.
Qed.

(** ** Gather *)

Lemma api_request_url_eq domain limit offset :
  api_request_url domain limit offset = Ok (request_url domain limit offset).
Proof.
  unfold api_request_url, request_url, format. simpl.
  rewrite append_empty. reflexivity.
Qed.

Lemma requesting_message url :
  format "Requesting {}" [url] [] = Ok ("Requesting " ++ url).
Proof. unfold format. simpl. rewrite append_empty. reflexivity. Qed.

Lemma invalid_response_message url :
  format "Gather error: Invalid response from {}" [url] []
  = Ok ("Gather error: Invalid response from " ++ url).
Proof. unfold format. simpl. rewrite append_empty. reflexivity. Qed.

Lemma gather_error_message t :
  format "Gather error: {}" [t] [] = Ok ("Gather error: " ++ t).
Proof. unfold format. simpl. rewrite append_empty. reflexivity. Qed.

Lemma request_datasets_eq job domain limit offset w :
  _request_datasets_from_socrata job domain limit offset w =
  (client_result (requests_get (requests_made w)
                               (request_url domain limit offset)),
   requested job (request_url domain limit offset) w).
Proof.
  unfold _request_datasets_from_socrata.
  rewrite api_request_url_eq, bind_lift_ok, requesting_message, bind_lift_ok.
  unfold log. rewrite bind_emit. unfold bind at 1, requests_get_now, requested.
  simpl.
  destruct (requests_get (requests_made w) (request_url domain limit offset))
    as [|api_json]; simpl.
  - rewrite invalid_response_message, bind_lift_ok.
    unfold _save_gather_error. rewrite bind_emit. unfold ret, record. simpl.
    rewrite <- !app_assoc. reflexivity.
  - destruct (contains api_json "error") as [[|]|e];
      [rewrite bind_lift_ok | rewrite bind_lift_ok | rewrite bind_lift_raise].
    + destruct (getitem api_json "error") as [error|e];
        [rewrite bind_lift_ok | rewrite bind_lift_raise].
      * rewrite gather_error_message, bind_lift_ok.
        unfold _save_gather_error. rewrite bind_emit. unfold ret, record. simpl.
        rewrite <- !app_assoc. reflexivity.
      * rewrite <- !app_assoc. reflexivity.
    + destruct (getitem api_json "results") as [results|e];
        [rewrite bind_lift_ok | rewrite bind_lift_raise];
        unfold ret; rewrite <- !app_assoc; reflexivity.
    + rewrite <- !app_assoc. reflexivity.
Qed.

Lemma pager_next_rest g w d rest :
  page_rest g = d :: rest ->
  pager_next g w = (Ok (Some d, resume g (current_offset g) rest), w).
Proof. intros H. unfold pager_next. rewrite H. reflexivity. Qed.

Lemma pager_next_page g w d rest :
  page_rest g = [] ->
  client_result (requests_get (requests_made w) (pager_url g))
  = Ok (JArr (d :: rest)) ->
  pager_next g w =
  (Ok (Some d, resume g (current_offset g + batch_number g) rest),
   requested (pager_job g) (pager_url g) w).
Proof.
  intros H Hr. unfold pager_next. rewrite H.
  unfold bind at 1. rewrite request_datasets_eq.
  fold (pager_url g). rewrite Hr. reflexivity.
Qed.

Lemma pager_next_end g w last :
  page_rest g = [] ->
  client_result (requests_get (requests_made w) (pager_url g)) = Ok last ->
  ends_paging last = true ->
  pager_next g w = (Ok (None, g), requested (pager_job g) (pager_url g) w).
Proof.
  intros H Hr He. unfold pager_next. rewrite H.
  unfold bind at 1. rewrite request_datasets_eq.
  fold (pager_url g). rewrite Hr.
  destruct last; try reflexivity; try discriminate He;
    unfold ends_paging in He;
    destruct (py_len _) as [[|n]|e]; try discriminate He; reflexivity.
Qed.

Lemma requests_of_client_error job url r : requests_of (client_error job url r) = [].
Proof.
  destruct r as [|api_json]; [reflexivity|]. simpl.
  destruct (contains api_json "error") as [[|]|]; try reflexivity.
  destruct (getitem api_json "error"); reflexivity.
Qed.

Lemma gather_errors_of_client_error job url r :
  gather_errors_of (client_error job url r) = client_error job url r.
Proof.
  destruct r as [|api_json]; [reflexivity|]. simpl.
  destruct (contains api_json "error") as [[|]|]; try reflexivity.
  destruct (getitem api_json "error"); reflexivity.
Qed.

Lemma requests_of_requested job url w :
  requests_of (events (requested job url w))
  = (requests_of (events w) ++ [url])%list.
Proof.
  unfold requests_of. simpl. rewrite flat_map_app. simpl.
  fold (requests_of (client_error job url (requests_get (requests_made w) url))).
  rewrite requests_of_client_error. reflexivity.
Qed.

Lemma gather_errors_of_requested job url w :
  gather_errors_of (events (requested job url w))
  = (gather_errors_of (events w)
     ++ client_error job url (requests_get (requests_made w) url))%list.
Proof.
  unfold gather_errors_of. simpl. rewrite filter_app. simpl.
  fold (gather_errors_of (client_error job url (requests_get (requests_made w) url))).
  rewrite gather_errors_of_client_error. reflexivity.
Qed.

Lemma offsets_succ offset batch n :
  offsets offset batch (S n) = offset :: offsets (offset + batch) batch n.
Proof.
  unfold offsets. simpl. f_equal; [lia|].
  rewrite <- seq_shift, map_map. apply map_ext. intros i. simpl. lia.
Qed.

(** Yielding the rest of the page in hand takes no request. *)
Lemma pager_run_rest rest : forall g offset yielded w fuel,
  pager_run (length rest + fuel) (resume g offset rest) yielded w
  = pager_run fuel (resume g offset []) (yielded ++ rest)%list w.
Proof.
  induction rest as [|d rest IH]; intros g offset yielded w fuel.
  - simpl. rewrite app_nil_r. reflexivity.
  - simpl. specialize (IH g offset (yielded ++ [d])%list w fuel).
    rewrite <- app_assoc in IH. exact IH.
Qed.

Lemma pager_run_pages pages : forall g yielded w fuel last,
  page_rest g = [] ->
  (forall i page, nth_error pages i = Some page ->
     page <> [] /\
     client_result
       (requests_get (requests_made w + i)
          (request_url (pager_domain g) (batch_number g)
                       (current_offset g + i * batch_number g)))
     = Ok (JArr page)) ->
  client_result
    (requests_get (requests_made w + length pages)
       (request_url (pager_domain g) (batch_number g)
                    (current_offset g + length pages * batch_number g)))
  = Ok last ->
  ends_paging last = true ->
  length (concat pages) < fuel ->
  exists w',
    pager_run fuel g yielded w = Some ((yielded ++ concat pages)%list, None, w') /\
    requests_of (events w')
    = (requests_of (events w)
       ++ map (request_url (pager_domain g) (batch_number g))
              (offsets (current_offset g) (batch_number g) (S (length pages))))%list.
Proof.
  induction pages as [|page pages IH]; intros g yielded w fuel last Hg Hp Hl He Hf.
  - destruct fuel as [|fuel]; [inversion Hf|]. simpl.
    simpl in Hl. rewrite Nat.add_0_r in Hl. rewrite Nat.add_0_r in Hl.
    rewrite (pager_next_end g w last Hg Hl He).
    eexists. split; [rewrite app_nil_r; reflexivity|].
    rewrite requests_of_requested. unfold offsets. simpl.
    rewrite Nat.add_0_r. reflexivity.
  - destruct (Hp 0 page eq_refl) as [Hne H0].
    destruct page as [|d rest]; [congruence|].
    rewrite !Nat.add_0_r in H0.
    destruct fuel as [|fuel]; [inversion Hf|].
    simpl in Hf. rewrite length_app in Hf.
    replace fuel with (length rest + (fuel - length rest)) by lia.
    simpl pager_run. rewrite (pager_next_page g w d rest Hg H0).
    rewrite pager_run_rest.
    destruct (IH (resume g (current_offset g + batch_number g) [])
                 ((yielded ++ [d]) ++ rest)%list
                 (requested (pager_job g) (pager_url g) w)
                 (fuel - length rest) last eq_refl) as [w' [Hrun Hreq]].
    + intros i p Hi. destruct (Hp (S i) p Hi) as [Hpne Hpi].
      split; [exact Hpne|]. simpl.
      replace (S (requests_made w + i)) with (requests_made w + S i) by lia.
      replace (current_offset g + batch_number g + i * batch_number g)
        with (current_offset g + S i * batch_number g) by (simpl; lia).
      exact Hpi.
    + simpl.
      replace (S (requests_made w + length pages))
        with (requests_made w + length ((d :: rest) :: pages)) by (simpl; lia).
      replace (current_offset g + batch_number g + length pages * batch_number g)
        with (current_offset g + length ((d :: rest) :: pages) * batch_number g)
        by (simpl; lia).
      exact Hl.
    + exact He.
    + lia.
    + exists w'. split.
      * rewrite Hrun. simpl. rewrite <- !app_assoc. reflexivity.
      * rewrite Hreq, requests_of_requested. simpl pager_domain.
        simpl batch_number. simpl current_offset. simpl length.
        rewrite (offsets_succ (current_offset g)). simpl map.
        rewrite <- app_assoc. reflexivity.
Qed.

(** C3.  Let the catalog client return the non-empty pages [pages], one per
    request, and then a result that ends the paging ([None] after a failed
    request, or an empty page).  Run to its end, the pager yields exactly
    the concatenation of the pages, in order, and then stops; it has issued
    one request per page and one for the result that ended it, with offsets
    0, [batch], 2 * [batch], ...  Any bound above the number of datasets is
    enough for the run to finish. *)
Theorem page_datasets_yields_pages_in_order
    (job : HarvestJob) (domain : string) (batch : nat) (w : World)
    (pages : list (list json)) (last : json) (fuel : nat) :
  (forall i page, nth_error pages i = Some page ->
     page <> [] /\
     client_result (requests_get (requests_made w + i)
                                 (request_url domain batch (i * batch)))
     = Ok (JArr page)) ->
  client_result (requests_get (requests_made w + length pages)
                              (request_url domain batch (length pages * batch)))
  = Ok last ->
  ends_paging last = true ->
  length (concat pages) < fuel ->
  exists w',
    pager_run fuel (_page_datasets job domain batch) [] w
    = Some (concat pages, None, w') /\
    requests_of (events w')
    = (requests_of (events w)
       ++ map (fun i => request_url domain batch (i * batch))
              (seq 0 (S (length pages))))%list.
Proof.
  intros Hp Hl He Hf.
  destruct (pager_run_pages pages (_page_datasets job domain batch) [] w fuel
              last eq_refl Hp Hl He Hf) as [w' [Hrun Hreq]].
  exists w'. split; [exact Hrun|].
  rewrite Hreq. unfold offsets. rewrite map_map. reflexivity.
Qed.

(** *** Creating the harvest objects *)












End Properties.

(** * Further properties of the code *)

Section FurtherProperties.

Context {E : Externals}.

(** ** Looking up an extra of a harvest object *)

(** X1.  [_get_object_extra] returns the value of the first extra carrying
    the key: extras before it with other keys are passed over, and extras
    after it, with the same key or not, do not matter. *)
Theorem get_object_extra_takes_first_match
    (before after : list HarvestObjectExtra) (extra : HarvestObjectExtra)
    (key : string) :
  (forall e, In e before -> object_extra_key e <> key) ->
  object_extra_key extra = key ->
  _get_object_extra (before ++ extra :: after)%list key
  = object_extra_value extra.
Proof.
  intros Hb Hk. induction before as [|b before IH]; simpl.
  - rewrite Hk, String.eqb_refl. reflexivity.
  - destruct (String.eqb_spec (object_extra_key b) key) as [Heq|_].
    + exfalso. apply (Hb b); [left; reflexivity | exact Heq].
    + apply IH. intros e He. apply Hb. right. exact He.
Qed.

(** X2.  [_get_object_extra] returns [None] when no extra of the object
    carries the key. *)
Theorem get_object_extra_without_match
    (extras : list HarvestObjectExtra) (key : string) :
  (forall e, In e extras -> object_extra_key e <> key) ->
  _get_object_extra extras key = None.
Proof.
  intros Hn. induction extras as [|b extras IH]; simpl; [reflexivity|].
  destruct (String.eqb_spec (object_extra_key b) key) as [Heq|_].
  - exfalso. apply (Hn b); [left; reflexivity | exact Heq].
  - apply IH. intros e He. apply Hn. right. exact He.
Qed.

(** ** The existence check *)

(** X3.  The query of [_get_existing_dataset] returns exactly the ids of the
    packages that are [active] and have an extra with key [identifier] and
    the guid as value; a package in any other state, or whose identifier
    differs, is never returned. *)
Theorem query_identifier_returns_active_matches
    (st : Store) (guid id : string) :
  In id (query_identifier st guid) <->
  exists p e,
    In p (Package_table st) /\ In e (PackageExtra_table st) /\
    package_id p = id /\
    extra_package_id e = package_id p /\
    extra_key e = "identifier" /\
    extra_value e = guid /\
    package_state p = "active".
Proof.
  unfold query_identifier, join_Package_PackageExtra. split.
  - intros H. apply in_map_iff in H. destruct H as [[p e] [Hid H]].
    repeat (apply filter_In in H; destruct H as [H ?]).
    apply in_prod_iff in H. destruct H as [Hp He]. simpl in *.
    exists p, e. repeat split; auto; apply String.eqb_eq; assumption.
  - intros (p & e & Hp & He & Hid & Hfk & Hk & Hv & Hs).
    apply in_map_iff. exists (p, e). split; [exact Hid|].
    repeat (apply filter_In; split); simpl;
      try (apply String.eqb_eq; assumption).
    apply in_prod_iff. split; assumption.
Qed.

(** X4.  With exactly one match the existence check logs nothing: its only
    action is [package_show] of that record under an empty context, whose
    result it returns and whose exception it lets through. *)
Theorem get_existing_dataset_single_match
    (guid : string) (w : World) (only : string) :
  query_identifier (store w) guid = [only] ->
  _get_existing_dataset guid w =
  (match package_show empty_context only (store w) with
   | Ok shown => Ok (Some shown)
   | Raise e => Raise e
   end,
   record (PackageShow empty_context only) w).
Proof.
  intros Hq. exact (get_existing_dataset_found guid w only [] Hq).
Qed.

(** ** The package builder *)

(** *** [str.strip] *)

Lemma lstrip_split c s : exists n, s = repeat_char c n ++ lstrip c s.
Proof.
  induction s as [|a s IH]; simpl.
  - exists 0. reflexivity.
  - destruct (Ascii.eqb_spec a c) as [Heq|Hne].
    + destruct IH as [n Hn]. exists (S n). simpl. subst a. f_equal. exact Hn.
    + exists 0. reflexivity.
Qed.

Lemma lstrip_head c s : ~ starts_with c (lstrip c s).
Proof.
  induction s as [|a s IH]; simpl.
  - intros [t Ht]. discriminate Ht.
  - destruct (Ascii.eqb_spec a c) as [Heq|Hne]; [exact IH|].
    intros [t Ht]. inversion Ht. contradiction.
Qed.

Lemma list_ascii_of_string_app a b :
  list_ascii_of_string (a ++ b)
  = (list_ascii_of_string a ++ list_ascii_of_string b)%list.
Proof. induction a as [|c a IH]; simpl; [|rewrite IH]; reflexivity. Qed.

Lemma string_of_list_ascii_app l1 l2 :
  string_of_list_ascii (l1 ++ l2)%list
  = string_of_list_ascii l1 ++ string_of_list_ascii l2.
Proof. induction l1 as [|c l1 IH]; simpl; [|rewrite IH]; reflexivity. Qed.

Lemma string_rev_app a b : string_rev (a ++ b) = string_rev b ++ string_rev a.
Proof.
  unfold string_rev.
  rewrite list_ascii_of_string_app, rev_app_distr, string_of_list_ascii_app.
  reflexivity.
Qed.

Lemma string_rev_involutive s : string_rev (string_rev s) = s.
Proof.
  unfold string_rev.
  rewrite list_ascii_of_string_of_list_ascii, rev_involutive.
  apply string_of_list_ascii_of_string.
Qed.

Lemma repeat_char_snoc c n :
  repeat_char c n ++ String c EmptyString = String c (repeat_char c n).
Proof. induction n as [|n IH]; simpl; [|rewrite IH]; reflexivity. Qed.

Lemma string_rev_repeat_char c n : string_rev (repeat_char c n) = repeat_char c n.
Proof.
  induction n as [|n IH]; [reflexivity|].
  change (repeat_char c (S n)) with (String c EmptyString ++ repeat_char c n)
    at 1.
  rewrite string_rev_app, IH. apply repeat_char_snoc.
Qed.

Lemma append_assoc (a b c : string) : (a ++ b) ++ c = a ++ (b ++ c).
Proof. induction a as [|x a IH]; simpl; [|rewrite IH]; reflexivity. Qed.

(** [s.strip(c)] removes the copies of [c] at both ends of [s], and all of
    them. *)
Lemma strip_spec c s :
  (exists n m, s = repeat_char c n ++ strip c s ++ repeat_char c m) /\
  ~ starts_with c (strip c s) /\
  ~ ends_with c (strip c s).
Proof.
  unfold strip.
  destruct (lstrip_split c s) as [n Hn].
  destruct (lstrip_split c (string_rev (lstrip c s))) as [m Hm].
  set (t := lstrip c s) in *.
  set (u := lstrip c (string_rev t)) in *.
  assert (Ht : t = string_rev u ++ repeat_char c m).
  { rewrite <- (string_rev_involutive t), Hm, string_rev_app,
      string_rev_repeat_char. reflexivity. }
  split; [|split].
  - exists n, m. rewrite <- Ht. exact Hn.
  - intros [y Hy]. apply (lstrip_head c s). fold t. rewrite Ht, Hy.
    eexists. reflexivity.
  - intros [y Hy]. apply (lstrip_head c (string_rev t)). fold u.
    rewrite <- (string_rev_involutive u), Hy, string_rev_app.
    eexists. reflexivity.
Qed.


(** X5.  Whatever the harvest object and whether it succeeds or not, the
    builder's one action on the world is a [package_show] of the object's
    harvest source, under the context it was given; and the record it
    returns (or the exception it raises) depends on the world through the
    package store only. *)
Theorem build_package_dict_only_shows_source
    (ctx : context) (o : HarvestObject) (w : World) :
  snd (_build_package_dict ctx o w)
  = record (PackageShow ctx (source_id (ho_source o))) w /\
  forall w2, store w2 = store w ->
    fst (_build_package_dict ctx o w2) = fst (_build_package_dict ctx o w).
Proof.
  split.
  - rewrite build_package_dict_eq. reflexivity.
  - intros w2 Hs. rewrite !build_package_dict_eq. simpl. rewrite Hs.
    reflexivity.
Qed.


Lemma get_then_getitem v k default x :
  get v k default = Ok x -> truthy x = true -> truthy default = false ->
  getitem v k = Ok x.
Proof.
  unfold get, getitem. destruct v; try discriminate.
  destruct (assoc k members) as [y|]; intros H Ht Hd; inversion H; subst.
  - reflexivity.
  - congruence.
Qed.

Ltac run_build H :=
  repeat match type of H with
    | bind (lift ?x) _ _ = (Ok _, _) =>
        let Step := fresh "Step" in
        destruct x eqn:Step;
        [ rewrite bind_lift_ok in H
        | rewrite bind_lift_raise in H; discriminate H ]
    end.

(** Everything a successful build read and what it made of it. *)
Lemma build_package_dict_inv ctx o w pd w' :
  _build_package_dict ctx o w = (Ok pd, w') ->
  exists source_dataset res resource classification domain_metadata declared,
    package_show ctx (source_id (ho_source o)) (store w) = Ok source_dataset /\
    get source_dataset "owner_org" JNull = Ok (pkg_owner_org pd) /\
    loads_content o = Ok res /\
    getitem res "resource" = Ok resource /\
    getitem resource "name" = Ok (pkg_title pd) /\
    munge_title_to_name (pkg_title pd) = Ok (pkg_name pd) /\
    get res "permalink" (JStr "") = Ok (pkg_url pd) /\
    get resource "description" (JStr "") = Ok (pkg_notes pd) /\
    getitem resource "attribution" = Ok (pkg_author pd) /\
    getitem resource "id" = Ok (pkg_identifier pd) /\
    getitem res "classification" = Ok classification /\
    get classification "domain_metadata" (JArr []) = Ok domain_metadata /\
    py_iter domain_metadata = Ok (pkg_extras pd) /\
    get resource "provenance" (JBool false) = Ok declared /\
    pkg_provenance pd = (if truthy declared then Some declared else None) /\
    pkg_harvest_source_id pd = source_id (job_source (ho_job o)) /\
    pkg_harvest_source_url pd
    = strip "/"%char (source_url (job_source (ho_job o))) /\
    pkg_harvest_source_title pd = source_title (job_source (ho_job o)).
Proof.
  intros H. unfold _build_package_dict in H.
  rewrite bind_package_show in H.
  destruct (package_show ctx (source_id (ho_source o)) (store w))
    as [source_dataset|e]; [|discriminate H].
  run_build H.
  match type of H with
  | context [if truthy ?declared then _ else _] =>
      destruct (truthy declared) eqn:Htruthy
  end;
    [rewrite bind_bind in H; run_build H|];
    rewrite bind_ret, download_url, bind_lift_ok in H.
  all: inversion H; subst; clear H; simpl.
  all: do 6 eexists.
  all: repeat (split; [first [reflexivity | eassumption]|]).
  all: try rewrite Htruthy.
  all: repeat split; try reflexivity.
  match goal with
  | Hg : get ?r "provenance" _ = Ok ?d, Hi : getitem ?r "provenance" = Ok ?p
    |- Some ?p = Some ?d =>
      rewrite (get_then_getitem _ _ _ _ Hg Htruthy eq_refl) in Hi;
      inversion Hi; reflexivity
  end.
Qed.


(** X6.  The record carries the descriptor's fields unchanged: [title] is
    [resource.name], [author] is [resource.attribution], [identifier] is
    [resource.id]; [name] is the munged title; [url] is the descriptor's
    [permalink] and [notes] its [resource.description], each the empty
    string when the descriptor does not have the key. *)
Theorem build_package_dict_copies_descriptor_fields
    (ctx : context) (o : HarvestObject) (w : World) (pd : package_dict)
    (w' : World) (res resource : json) :
  _build_package_dict ctx o w = (Ok pd, w') ->
  loads_content o = Ok res ->
  getitem res "resource" = Ok resource ->
  getitem resource "name" = Ok (pkg_title pd) /\
  munge_title_to_name (pkg_title pd) = Ok (pkg_name pd) /\
  getitem resource "attribution" = Ok (pkg_author pd) /\
  getitem resource "id" = Ok (pkg_identifier pd) /\
  get res "permalink" (JStr "") = Ok (pkg_url pd) /\
  get resource "description" (JStr "") = Ok (pkg_notes pd).
Proof.
  intros Hb Hres Hr.
  destruct (build_package_dict_inv _ _ _ _ _ Hb)
    as (sd & res' & resource' & cl & dm & declared & _ & _ & Hres' & Hr'
        & Hn & Hm & Hu & Hd & Ha & Hi & _).
  rewrite Hres in Hres'. inversion Hres'; subst res'.
  rewrite Hr in Hr'. inversion Hr'; subst resource'.
  repeat split; assumption.
Qed.

(** X7.  The record has a [provenance] only when the descriptor declares a
    true one: it is [resource.provenance] when that value is true in
    Python's sense, and absent when the key is missing or its value is
    empty, zero, [false] or [null]. *)
Theorem build_package_dict_provenance_when_declared
    (ctx : context) (o : HarvestObject) (w : World) (pd : package_dict)
    (w' : World) (res resource : json) :
  _build_package_dict ctx o w = (Ok pd, w') ->
  loads_content o = Ok res ->
  getitem res "resource" = Ok resource ->
  exists declared,
    get resource "provenance" (JBool false) = Ok declared /\
    pkg_provenance pd = (if truthy declared then Some declared else None).
Proof.
  intros Hb Hres Hr.
  destruct (build_package_dict_inv _ _ _ _ _ Hb)
    as (sd & res' & resource' & cl & dm & declared & _ & _ & Hres' & Hr'
        & _ & _ & _ & _ & _ & _ & _ & _ & _ & Hg & Hp & _).
  rewrite Hres in Hres'. inversion Hres'; subst res'.
  rewrite Hr in Hr'. inversion Hr'; subst resource'.
  exists declared. split; assumption.
Qed.

(** X8.  The harvester details of the record come from the source of the
    object's job: its id, its title, and its URL with every slash at either
    end removed (what is removed are slashes only, and none is left at the
    ends).  The owning organization is the [owner_org] of the dataset of
    the object's own harvest source, [None] when it has none. *)
Theorem build_package_dict_harvest_source_details
    (ctx : context) (o : HarvestObject) (w : World) (pd : package_dict)
    (w' : World) :
  _build_package_dict ctx o w = (Ok pd, w') ->
  pkg_harvest_source_id pd = source_id (job_source (ho_job o)) /\
  pkg_harvest_source_title pd = source_title (job_source (ho_job o)) /\
  (exists n m,
     source_url (job_source (ho_job o))
     = repeat_char "/"%char n ++ pkg_harvest_source_url pd
       ++ repeat_char "/"%char m) /\
  ~ starts_with "/"%char (pkg_harvest_source_url pd) /\
  ~ ends_with "/"%char (pkg_harvest_source_url pd) /\
  exists source_dataset,
    package_show ctx (source_id (ho_source o)) (store w) = Ok source_dataset /\
    get source_dataset "owner_org" JNull = Ok (pkg_owner_org pd).
Proof.
  intros Hb.
  destruct (build_package_dict_inv _ _ _ _ _ Hb)
    as (sd & res & resource & cl & dm & declared & Hs & Ho & _ & _
        & _ & _ & _ & _ & _ & _ & _ & _ & _ & _ & _ & Hid & Hurl & Htitle).
  destruct (strip_spec "/"%char (source_url (job_source (ho_job o))))
    as (Hsplit & Hstart & Hend).
  rewrite Hurl.
  repeat split; try assumption.
  exists sd. split; assumption.
Qed.

(** X9.  The extras of the record are the items of the classification's
    [domain_metadata], as they are and in order; without that key the
    record has no extras. *)
Theorem build_package_dict_extras_are_domain_metadata
    (ctx : context) (o : HarvestObject) (w : World) (pd : package_dict)
    (w' : World) (res classification : json) :
  _build_package_dict ctx o w = (Ok pd, w') ->
  loads_content o = Ok res ->
  getitem res "classification" = Ok classification ->
  exists domain_metadata,
    get classification "domain_metadata" (JArr []) = Ok domain_metadata /\
    py_iter domain_metadata = Ok (pkg_extras pd).
Proof.
  intros Hb Hres Hc.
  destruct (build_package_dict_inv _ _ _ _ _ Hb)
    as (sd & res' & resource & cl & dm & declared & _ & _ & Hres' & _
        & _ & _ & _ & _ & _ & _ & Hc' & Hdm & Hex & _).
  rewrite Hres in Hres'. inversion Hres'; subst res'.
  rewrite Hc in Hc'. inversion Hc'; subst cl.
  exists dm. split; assumption.
Qed.

(** X10.  A descriptor needs a [classification] besides the three resource
    fields: when [res['classification']] raises -- a [KeyError] when the
    key is missing -- the builder raises the same exception although
    [resource.name], [resource.attribution] and [resource.id] are there,
    after its one [package_show]. *)
Theorem build_package_dict_needs_classification
    (ctx : context) (o : HarvestObject) (w : World)
    (source_dataset org res resource title author id : json)
    (name : string) (e : exn) :
  package_show ctx (source_id (ho_source o)) (store w) = Ok source_dataset ->
  get source_dataset "owner_org" JNull = Ok org ->
  loads_content o = Ok res ->
  getitem res "resource" = Ok resource ->
  getitem resource "name" = Ok title ->
  munge_title_to_name title = Ok name ->
  getitem resource "attribution" = Ok author ->
  getitem resource "id" = Ok id ->
  getitem res "classification" = Raise e ->
  _build_package_dict ctx o w
  = (Raise e, record (PackageShow ctx (source_id (ho_source o))) w).
Proof.
  intros Hs Ho Hres Hr Hn Hm Ha Hi Hc.
  unfold _build_package_dict.
  rewrite bind_package_show, Hs, Ho, bind_lift_ok, Hres, bind_lift_ok.
  rewrite Hr, bind_lift_ok, Hn, bind_lift_ok, Hm, bind_lift_ok.
  assert (Hp : exists url, get res "permalink" (JStr "") = Ok url).
  { destruct res; try discriminate Hr. simpl.
    destruct (assoc "permalink" members); eauto. }
  assert (Hd : exists notes, get resource "description" (JStr "") = Ok notes).
  { destruct resource; try discriminate Hn. simpl.
    destruct (assoc "description" members); eauto. }
  destruct Hp as [url Hp]. destruct Hd as [notes Hd].
  rewrite Hp, bind_lift_ok, Hd, bind_lift_ok, Ha, bind_lift_ok.
  rewrite Hi, bind_lift_ok, Hc, bind_lift_raise. reflexivity.
Qed.


(** X24.  A harvest source whose URL has no hostname is not refused by the
    builder: [urlparse] gives [None], which the template formats as the
    text [None], so the one resource of the record points at the host
    [None]. *)
Theorem build_package_dict_without_hostname
    (ctx : context) (o : HarvestObject) (w : World) (pd : package_dict)
    (w' : World) (res : json) (id : string) :
  _build_package_dict ctx o w = (Ok pd, w') ->
  loads_content o = Ok res ->
  descriptor_id res = Ok (JStr id) ->
  hostname (source_url (ho_source o)) = None ->
  pkg_resources pd =
    [ {| resource_url :=
           "https://None/api/views/" ++ id ++ "/rows.csv?accessType=DOWNLOAD";
         resource_format := "CSV" |} ].
Proof.
  intros Hb Hres Hid Hh.
  destruct (build_package_dict_ok _ _ _ _ _ Hb)
    as (res' & cl & ts & ds & munged & Hres' & Hid' & _ & _ & _ & _ & _ & Hr & _).
  rewrite Hres in Hres'. inversion Hres'; subst res'.
  rewrite Hid in Hid'. inversion Hid' as [Hpd].
  rewrite Hr, <- Hpd, Hh. reflexivity.
Qed.

(** ** Gather *)

(** X11.  One call of the catalog client issues exactly one request, logged
    before it is sent, for the catalog endpoint with the domain as both
    [domains] and [search_context], [only=datasets] and the given limit and
    offset; this holds whatever the response is. *)
Theorem request_datasets_issues_one_request
    (job : HarvestJob) (domain : string) (limit offset : nat) (w : World) :
  exists later,
    events (snd (_request_datasets_from_socrata job domain limit offset w))
    = (events w
       ++ [Log DEBUG ("Requesting " ++
             "https://api.us.socrata.com/api/catalog/v1?domains=" ++ domain
             ++ "&search_context=" ++ domain ++ "&only=datasets&limit="
             ++ decimal limit ++ "&offset=" ++ decimal offset);
           Request ("https://api.us.socrata.com/api/catalog/v1?domains="
             ++ domain ++ "&search_context=" ++ domain
             ++ "&only=datasets&limit=" ++ decimal limit ++ "&offset="
             ++ decimal offset)]
       ++ later)%list /\
    requests_of later = [] /\
    requests_made (snd (_request_datasets_from_socrata job domain limit offset w))
    = S (requests_made w).
Proof.
  rewrite request_datasets_eq. simpl.
  eexists. split; [reflexivity|]. split; [|reflexivity].
  apply requests_of_client_error.
Qed.

Lemma client_result_raise_no_error job url r e :
  client_result r = Raise e -> client_error job url r = [].
Proof.
  destruct r as [|api_json]; simpl; [discriminate|].
  destruct (contains api_json "error") as [[|]|]; try reflexivity.
  destruct (getitem api_json "error"); [discriminate|reflexivity].
Qed.

(** X12.  A body that decodes to something other than an object, or to an
    object with neither an [error] nor a [results] member, is not handled
    by the catalog client: it raises ([TypeError], respectively
    [KeyError] for [results]) and saves no gather error. *)
Theorem request_datasets_raises_on_unexpected_body
    (job : HarvestJob) (domain : string) (limit offset : nat) (w : World)
    (api_json : json) :
  requests_get (requests_made w) (request_url domain limit offset)
  = Body api_json ->
  (forall members, api_json = JObj members ->
     assoc "error" members = None /\ assoc "results" members = None) ->
  exists e w',
    _request_datasets_from_socrata job domain limit offset w = (Raise e, w') /\
    (e = match api_json with
         | JObj _ => KeyError "results"
         | _ => TypeError
         end) /\
    gather_errors_of (events w') = gather_errors_of (events w).
Proof.
  intros Hr Hm. rewrite request_datasets_eq.
  assert (Hc : client_result (Body api_json)
               = Raise match api_json with
                       | JObj _ => KeyError "results"
                       | _ => TypeError
                       end).
  { destruct api_json as [| | |s|items|members]; simpl; try reflexivity.
    - destruct (index 0 "error" s); reflexivity.
    - destruct (existsb _ items); reflexivity.
    - destruct (Hm members eq_refl) as [He Hres]. rewrite He, Hres.
      reflexivity. }
  rewrite Hr, Hc. eexists. eexists. split; [reflexivity|].
  split; [reflexivity|].
  rewrite gather_errors_of_requested, Hr.
  rewrite (client_result_raise_no_error _ _ _ _ Hc). apply app_nil_r.
Qed.














(** X16.  The harvest object [_make_harvest_objs] saves for a descriptor
    belongs to the job and to the job's source, is not current, and has the
    serialized descriptor as content; its guid is the descriptor's
    [resource.id] when that is a string.  So when the codec reads back what
    it wrote, the content of the object decodes to the descriptor it was
    made of, and its guid is the identifier [import_stage] will build. *)
Theorem make_harvest_obj_saves_the_descriptor
    (job : HarvestJob) (d : json) (w : World) (id : string) (w1 : World) :
  make_harvest_obj job d w = (Ok id, w1) ->
  exists o,
    In o (harvest_objects w1) /\
    ho_id o = id /\
    ho_job o = job /\
    ho_source o = job_source job /\
    ho_content o = Some (json_dumps d) /\
    ho_current o = false /\
    (forall guid, descriptor_id d = Ok (JStr guid) -> ho_guid o = guid) /\
    (json_loads (json_dumps d) = Ok d -> loads_content o = Ok d).
Proof.
  intros H. unfold make_harvest_obj in H. run_build H.
  unfold log in H. rewrite bind_emit in H. run_build H.
  unfold bind, save_new_object, ret in H. simpl in H.
  inversion H; subst; clear H.
  eexists. split; [apply put_object_holds|]. simpl.
  repeat split; try reflexivity.
  - intros guid Hg. unfold descriptor_id in Hg.
    match goal with
    | Hs : getitem d "resource" = Ok ?r, Hi : getitem ?r "id" = Ok ?v,
      Hc : match ?v with JStr _ => _ | _ => _ end = Ok _ |- _ =>
        rewrite Hs, Hi in Hg; inversion Hg; subst v;
        inversion Hc; reflexivity
    end.
  - intros Hl. unfold loads_content. simpl. exact Hl.
Qed.


(** ** Import *)

(** X17.  With no record under the guid, the import creates: after the
    bookkeeping and the build it logs the new dataset and calls
    [package_create] once with the built record.  An exception of
    [package_create] is caught: [import_stage] returns [False] (never
    raises) and records one error against the object, with stage [Import]
    and the exception in the message; otherwise it returns [True].  The
    package store is what [package_create] left. *)
Theorem import_stage_create_path
    (o : HarvestObject) (c : string) (res : json) (w : World)
    (pd : package_dict) :
  ho_content o = Some c ->
  json_loads c = Ok res ->
  query_identifier (store w) (ho_guid o) = [] ->
  built base_context o (store w) = Ok pd ->
  exists w',
    import_stage (Some o) w
    = (Ok (match fst (package_create base_context pd (store w)) with
           | Ok _ => true
           | Raise _ => false
           end), w') /\
    store w' = snd (package_create base_context pd (store w)) /\
    events w'
    = (events w
       ++ [entering; Add (ho_id o);
           PackageShow base_context (source_id (ho_source o));
           Log DEBUG ("New dataset " ++ text (pkg_identifier pd));
           PackageCreate base_context pd]
       ++ match fst (package_create base_context pd (store w)) with
          | Ok _ => []
          | Raise e =>
              [SaveObjectError
                 ("Error creating package for " ++ ho_id o ++ ": " ++ exn_str e)
                 (ho_id o) "Import"]
          end)%list.
Proof.
  intros Hc Hl Hq Hb.
  rewrite (import_stage_eq o c w Hc), Hl.
  rewrite (get_existing_dataset_none _ (bookkept o w) Hq).
  rewrite store_bookkept, Hb. cbv zeta. unfold reconciled, existing.
  change (store (record _ (bookkept o w))) with (store w).
  destruct (package_create base_context pd (store w)) as [[x|e] st];
    eexists; (split; [reflexivity|]); (split; [reflexivity|]);
    simpl; rewrite <- !app_assoc; reflexivity.
Qed.

(** X18.  With exactly one record under the guid, shown as a non-empty
    dict, the import updates: it logs no anomaly, logs the existing dataset
    and calls [package_update] once with the built record -- the record
    carries no id of the match.  An exception of [package_update] is
    caught: [import_stage] returns [False] and records one error against the
    object with stage [Import]; otherwise it returns [True]. *)
Theorem import_stage_update_path
    (o : HarvestObject) (c : string) (res : json) (w : World)
    (only : string) (shown : json) (pd : package_dict) :
  ho_content o = Some c ->
  json_loads c = Ok res ->
  query_identifier (store w) (ho_guid o) = [only] ->
  package_show empty_context only (store w) = Ok shown ->
  truthy shown = true ->
  built base_context o (store w) = Ok pd ->
  exists w',
    import_stage (Some o) w
    = (Ok (match fst (package_update base_context pd (store w)) with
           | Ok _ => true
           | Raise _ => false
           end), w') /\
    store w' = snd (package_update base_context pd (store w)) /\
    events w'
    = (events w
       ++ [entering; Add (ho_id o);
           PackageShow empty_context only;
           PackageShow base_context (source_id (ho_source o));
           Log DEBUG ("Existing dataset " ++ text (pkg_identifier pd));
           PackageUpdate base_context pd]
       ++ match fst (package_update base_context pd (store w)) with
          | Ok _ => []
          | Raise e =>
              [SaveObjectError
                 ("Error updating package for " ++ ho_id o ++ ": " ++ exn_str e)
                 (ho_id o) "Import"]
          end)%list.
Proof.
  intros Hc Hl Hq Hs Ht Hb.
  rewrite (import_stage_eq o c w Hc), Hl.
  rewrite (get_existing_dataset_found _ (bookkept o w) only [] Hq).
  rewrite store_bookkept, Hs. cbv zeta.
  change (store (record _ (bookkept o w))) with (store w).
  rewrite Hb. unfold reconciled, existing. rewrite Ht.
  change (store (record _ (record _ (bookkept o w)))) with (store w).
  destruct (package_update base_context pd (store w)) as [[x|e] st];
    eexists; (split; [reflexivity|]); (split; [reflexivity|]);
    simpl; rewrite <- !app_assoc; reflexivity.
Qed.

Lemma filter_reconciles_none es :
  Forall (fun e => reconciles e = false) es -> filter reconciles es = [].
Proof.
  induction 1 as [|e es He _ IH]; simpl; [reflexivity|].
  rewrite He. exact IH.
Qed.

(** X19.  One import attempt calls [package_create] or [package_update] at
    most once, never both, whatever it is given and however it ends; and it
    returns [True] only when it made exactly one such call. *)
Theorem import_stage_reconciles_at_most_once
    (harvest_object : option HarvestObject) (w : World)
    (r : result bool) (w' : World) :
  import_stage harvest_object w = (r, w') ->
  exists es,
    events w' = (events w ++ es)%list /\
    length (filter reconciles es) <= 1 /\
    (r = Ok true -> length (filter reconciles es) = 1).
Proof.
  intros H. destruct harvest_object as [o|].
  2:{ inversion H; subst; clear H. eexists. split.
      - simpl. rewrite <- app_assoc. reflexivity.
      - simpl. split; [lia | discriminate]. }
  destruct (ho_content o) as [c|] eqn:Hc.
  2:{ unfold import_stage in H. rewrite Hc in H.
      inversion H; subst; clear H. eexists. split.
      - simpl. rewrite <- app_assoc. reflexivity.
      - simpl. split; [lia | discriminate]. }
  rewrite (import_stage_eq o c w Hc) in H.
  destruct (json_loads c) as [res|e].
  2:{ inversion H; subst; clear H. eexists. split.
      - apply events_bookkept.
      - simpl. split; [lia | discriminate]. }
  destruct (_get_existing_dataset (ho_guid o) (bookkept o w))
    as [[existing_dataset|e] w2] eqn:Hg.
  2:{ inversion H; subst; clear H.
      assert (Hq : effects (fun ev => reconciles ev = false)
                     (_get_existing_dataset (ho_guid o)))
        by (apply effects_get_existing_dataset; intros; reflexivity).
      destruct (Hq _ _ _ Hg) as [_ [es [He F]]].
      eexists. split.
      - rewrite He, events_bookkept, <- app_assoc. reflexivity.
      - rewrite filter_app, (filter_reconciles_none _ F). simpl.
        split; [lia | discriminate]. }
  assert (Hq : effects (fun ev => reconciles ev = false)
                 (_get_existing_dataset (ho_guid o)))
    by (apply effects_get_existing_dataset; intros; reflexivity).
  destruct (Hq _ _ _ Hg) as [_ [es [He F]]].
  cbv zeta in H.
  destruct (built base_context o (store w2)) as [pd|e].
  2:{ inversion H; subst; clear H. eexists. split.
      - simpl. rewrite He, events_bookkept, <- !app_assoc. reflexivity.
      - rewrite !filter_app, (filter_reconciles_none _ F). simpl.
        split; [lia | discriminate]. }
  unfold reconciled in H.
  destruct (existing existing_dataset);
    match type of H with
    | context [?f base_context pd ?st] =>
        destruct (f base_context pd st) as [[x|e] st']
    end;
    inversion H; subst; clear H;
    (eexists; split;
     [ simpl; rewrite He, events_bookkept, <- !app_assoc; reflexivity
     | rewrite !filter_app, (filter_reconciles_none _ F); simpl;
       split; [lia | intros Hr; first [reflexivity | discriminate Hr]] ]).
Qed.

Lemma put_object_other o rows row :
  ho_id row <> ho_id o ->
  (In row (put_object o rows) <-> In row rows).
Proof.
  intros Hne. split; [|intros H; apply put_object_keeps; assumption].
  unfold put_object. intros Hin.
  destruct (existsb (has_id (ho_id o)) rows).
  - apply in_map_iff in Hin. destruct Hin as [x [Hx Hin]].
    destruct (has_id (ho_id o) x); subst; [congruence | exact Hin].
  - apply in_app_or in Hin. destruct Hin as [Hin|[Hin|[]]];
      [exact Hin | congruence].
Qed.

(** X20.  An import attempt touches no harvest object but its own: the
    rows of all other objects are in the table afterwards exactly as they
    were before, whatever the outcome.  In particular no import ever
    clears the [current] flag of another object. *)
Theorem import_stage_leaves_other_objects
    (harvest_object : option HarvestObject) (w : World)
    (r : result bool) (w' : World) (row : HarvestObject) :
  import_stage harvest_object w = (r, w') ->
  (forall o, harvest_object = Some o -> ho_id row <> ho_id o) ->
  (In row (harvest_objects w') <-> In row (harvest_objects w)).
Proof.
  intros H Hne. destruct harvest_object as [o|].
  2:{ inversion H; subst; clear H. simpl. reflexivity. }
  destruct (ho_content o) as [c|] eqn:Hc.
  2:{ unfold import_stage in H. rewrite Hc in H.
      inversion H; subst; clear H. simpl. reflexivity. }
  destruct (import_stage_bookkeeping o c w r w' Hc H) as [Ho _].
  rewrite Ho. apply put_object_other. simpl. exact (Hne o eq_refl).
Qed.

(** X21.  Content that does not decode is found out after the bookkeeping:
    the object is flagged current and added, then the exception of
    [json.loads] leaves [import_stage]; the existence check, the build and
    the package actions are not reached and no error is recorded. *)
Theorem import_stage_undecodable_content
    (o : HarvestObject) (c : string) (e : exn) (w : World) :
  ho_content o = Some c ->
  json_loads c = Raise e ->
  exists w',
    import_stage (Some o) w = (Raise e, w') /\
    events w' = (events w ++ [entering; Add (ho_id o)])%list /\
    harvest_objects w'
    = put_object (with_current o true) (harvest_objects w) /\
    store w' = store w.
Proof.
  intros Hc Hl. rewrite (import_stage_eq o c w Hc), Hl.
  exists (bookkept o w). split; [reflexivity|].
  split; [apply events_bookkept|]. split; reflexivity.
Qed.

Lemma put_object_idempotent o rows :
  put_object o (put_object o rows) = put_object o rows.
Proof.
  assert (Hex : existsb (has_id (ho_id o)) (put_object o rows) = true).
  { apply existsb_exists. exists o. split; [apply put_object_holds|].
    unfold has_id. apply String.eqb_refl. }
  unfold put_object at 1. rewrite Hex.
  rewrite <- (map_id (put_object o rows)) at 2.
  apply map_ext_in. intros x Hx.
  destruct (has_id (ho_id o) x) eqn:Hid; [|reflexivity].
  symmetry. apply (put_object_unique o rows x Hx).
  unfold has_id in Hid. apply String.eqb_eq. exact Hid.
Qed.

(** X22.  Importing an object again leaves the table of harvest objects as
    the first import left it: the second bookkeeping rewrites the same row
    and touches no other, whatever the two outcomes are. *)
Theorem import_stage_again_keeps_the_table
    (o : HarvestObject) (c : string) (w w1 w2 : World) (r1 r2 : result bool) :
  ho_content o = Some c ->
  import_stage (Some o) w = (r1, w1) ->
  import_stage (Some o) w1 = (r2, w2) ->
  harvest_objects w2 = harvest_objects w1.
Proof.
  intros Hc H1 H2.
  destruct (import_stage_bookkeeping o c w r1 w1 Hc H1) as [Ho1 _].
  destruct (import_stage_bookkeeping o c w1 r2 w2 Hc H2) as [Ho2 _].
  rewrite Ho2, Ho1. apply put_object_idempotent.
Qed.

(** X23.  An exception of [package_show] in the existence check is not
    caught: it leaves [import_stage] after the bookkeeping (and the anomaly
    log, when there are several matches), before the build; neither
    [package_create] nor [package_update] is called and no error is
    recorded against the object. *)
Theorem import_stage_existence_check_failure
    (o : HarvestObject) (c : string) (res : json) (w : World)
    (first : string) (rest : list string) (e : exn) :
  ho_content o = Some c ->
  json_loads c = Ok res ->
  query_identifier (store w) (ho_guid o) = first :: rest ->
  package_show empty_context first (store w) = Raise e ->
  exists w',
    import_stage (Some o) w = (Raise e, w') /\
    events w'
    = (events w
       ++ [entering; Add (ho_id o)]
       ++ match rest with
          | [] => []
          | _ => [anomaly (ho_guid o)]
          end
       ++ [PackageShow empty_context first])%list /\
    store w' = store w.
Proof.
  intros Hc Hl Hq Hs.
  rewrite (import_stage_eq o c w Hc), Hl.
  rewrite (get_existing_dataset_found _ (bookkept o w) first rest Hq).
  rewrite store_bookkept, Hs.
  eexists. split; [reflexivity|].
  destruct rest; simpl; rewrite <- !app_assoc; split; reflexivity.
Qed.


End FurtherProperties.

(** * The properties on the small installation *)

Lemma import_stage_rejects_absent_or_empty_witness :
  exists r w',
    @import_stage Demo.installation (Some Demo.blank) Demo.start = (r, w') /\
    r = Ok false /\
    harvest_objects w' = harvest_objects Demo.start /\
    store w' = store Demo.start /\
    events w'
    = (events Demo.start
       ++ [entering;
           SaveObjectError ("Empty content for object " ++ "object-e")
                           "object-e" "Import"])%list.
Proof.
  exact (@import_stage_rejects_absent_or_empty Demo.installation
           (Some Demo.blank) Demo.start).
Defined.

(** C7, where the code departs from the claim as stated: the content of
    [Samples.hollow] is empty, the string of length zero, and its import is
    not rejected.  The object is flagged current and added, and the
    exception of [json.loads] leaves [import_stage]: no [False], no error
    logged or recorded. *)
Lemma zero_length_content_is_not_rejected :
  ho_content Samples.hollow = Some "" /\
  @import_stage Demo.installation (Some Samples.hollow)
    (Demo.world [Samples.hollow] Demo.fresh_store)
  = (Raise ValueError,
     {| harvest_objects := [with_current Samples.hollow true];
        store := Demo.fresh_store;
        events := [entering; Add "object-z"];
        requests_made := 0; uuids_made := 0 |}).
Proof. split; [reflexivity | vm_compute; reflexivity]. Qed.

Lemma import_stage_leaves_previous_current_witness :
  In Demo.previous
     (harvest_objects
        (snd (@import_stage Demo.installation (Some Demo.latest) Demo.start))) /\
  In (with_current Demo.latest true)
     (harvest_objects
        (snd (@import_stage Demo.installation (Some Demo.latest) Demo.start))) /\
  ~ one_current_per_guid
      (harvest_objects
         (snd (@import_stage Demo.installation (Some Demo.latest) Demo.start))).
Proof.
  apply (@import_stage_leaves_previous_current Demo.installation
           Demo.previous Demo.latest "doc:abc-123" Demo.start
           (fst (@import_stage Demo.installation (Some Demo.latest) Demo.start))).
  - simpl. auto.
  - reflexivity.
  - reflexivity.
  - simpl. discriminate.
  - reflexivity.
  - vm_compute. reflexivity.
Defined.

(** The import in the witness above is a successful one. *)
Example import_of_latest_succeeds :
  fst (@import_stage Demo.installation (Some Demo.latest) Demo.start) = Ok true.
Proof. vm_compute. reflexivity. Qed.


(** The import in the witness above is one that fails at the create. *)
Example import_with_name_taken_fails :
  fst (@import_stage Demo.installation (Some Demo.latest)
         (Demo.world [Demo.latest] Demo.taken_store)) = Ok false.
Proof. vm_compute. reflexivity. Qed.


Lemma malformed_descriptor_raises_through_import_witness :
  @_build_package_dict Demo.installation (@base_context Demo.installation)
    Demo.malformed (Demo.world [Demo.malformed] Demo.fresh_store)
  = (Raise (KeyError "attribution"),
     record (PackageShow (@base_context Demo.installation) "source-1")
            (Demo.world [Demo.malformed] Demo.fresh_store)) /\
  exists w' es,
    @import_stage Demo.installation (Some Demo.malformed)
      (Demo.world [Demo.malformed] Demo.fresh_store)
    = (Raise (KeyError "attribution"), w') /\
    events w'
    = (events (Demo.world [Demo.malformed] Demo.fresh_store) ++ es)%list /\
    Forall (fun ev => reconciles ev = false /\ records_object_error ev = false)
           es.
Proof.
  destruct (@malformed_descriptor_raises_through_import Demo.installation
              Demo.malformed "doc:una-9" Demo.unattributed
              (Demo.world [Demo.malformed] Demo.fresh_store)
              eq_refl eq_refl eq_refl)
    as (Hraise & Hkey & e & w' & es & Hi & He & F & Hsame).
  assert (Hb : @built Demo.installation (@base_context Demo.installation)
                 Demo.malformed Demo.fresh_store
               = Raise (KeyError "attribution")).
  { apply (Hkey (@base_context Demo.installation) Demo.fresh_store
             [("id", JStr "source-1"); ("name", JStr "example");
              ("state", JStr "active"); ("owner_org", JStr "org-1")]
             [("id", JStr "una-9"); ("name", JStr "Unattributed")]).
    - reflexivity.
    - reflexivity.
    - intros title Ht. inversion Ht; subst title.
      exists "unattributed". reflexivity. }
  assert (Hsame' : @built Demo.installation (@base_context Demo.installation)
                     Demo.malformed Demo.fresh_store = Raise e)
    by exact Hsame.
  rewrite Hb in Hsame'. inversion Hsame'; subst e. split.
  - destruct (Hraise (@base_context Demo.installation)
                (Demo.world [Demo.malformed] Demo.fresh_store))
      as [e0 [Hrun Hbuilt]].
    change (@built Demo.installation (@base_context Demo.installation)
              Demo.malformed Demo.fresh_store = Raise e0) in Hbuilt.
    rewrite Hb in Hbuilt. inversion Hbuilt; subst e0. exact Hrun.
  - exists w', es. auto.
Defined.

(** C2, where the code departs from the claim as stated: the descriptor of
    [Demo.malformed] has no attribution, and its import is not recorded as
    a failure of that object -- it ends in an exception. *)
Lemma malformed_descriptor_not_recorded :
  lacks_required Demo.unattributed = true /\
  ~ @failure_recorded Demo.installation Demo.malformed
      (Demo.world [Demo.malformed] Demo.fresh_store).
Proof.
  split; [reflexivity|].
  intros (w' & message & H & _). vm_compute in H. discriminate H.
Qed.

Lemma build_package_dict_download_resource_witness :
  exists pd,
    fst (@_build_package_dict Demo.installation
           (@base_context Demo.installation) Demo.latest Demo.start)
    = Ok pd /\
    pkg_resources pd
    = [ {| resource_url :=
             "https://" ++ "data.example.com" ++ "/api/views/" ++ "abc-123"
             ++ "/rows.csv?accessType=DOWNLOAD";
           resource_format := "CSV" |} ].
Proof.
  eexists. split; [vm_compute; reflexivity|].
  apply (@build_package_dict_download_resource Demo.installation
           (@base_context Demo.installation) Demo.latest Demo.start _
           (snd (@_build_package_dict Demo.installation
                   (@base_context Demo.installation) Demo.latest Demo.start))
           Demo.test_set "data.example.com" "abc-123").
  - vm_compute. reflexivity.
  - reflexivity.
  - reflexivity.
  - reflexivity.
Defined.

Lemma build_package_dict_tags_concatenated_witness :
  exists pd,
    fst (@_build_package_dict Demo.installation
           (@base_context Demo.installation) Demo.river_object Demo.start)
    = Ok pd /\
    Forall2 (fun t d => @munge_tag Demo.installation t = Ok (tag_name d))
            ([JStr "water"] ++ [JStr "water"])%list (pkg_tags pd) /\
    length (pkg_tags pd) = length [JStr "water"] + length [JStr "water"].
Proof.
  eexists. split; [vm_compute; reflexivity|].
  apply (@build_package_dict_tags_concatenated Demo.installation
           (@base_context Demo.installation) Demo.river_object Demo.start _
           (snd (@_build_package_dict Demo.installation
                   (@base_context Demo.installation) Demo.river_object
                   Demo.start))
           Demo.rivers
           (JObj [("tags", JArr [JStr "water"]);
                  ("domain_tags", JArr [JStr "water"])])).
  - vm_compute. reflexivity.
  - reflexivity.
  - reflexivity.
  - reflexivity.
  - reflexivity.
Defined.

(** C9, where the code departs from the claim as stated: the descriptor of
    [Demo.river_object] lists the tag [water] under [tags] and under
    [domain_tags], and the record built from it carries the tag twice. *)
Lemma build_package_dict_keeps_duplicate_tags :
  exists pd w',
    @_build_package_dict Demo.installation (@base_context Demo.installation)
      Demo.river_object Demo.start = (Ok pd, w') /\
    pkg_tags pd = [ {| tag_name := "water" |}; {| tag_name := "water" |} ] /\
    ~ NoDup (pkg_tags pd).
Proof.
  eexists. eexists. split; [vm_compute; reflexivity|].
  split; [reflexivity|].
  intros H. inversion H as [|x l Hnotin _]; subst.
  apply Hnotin. left. reflexivity.
Qed.

Lemma import_stage_anomaly_updates_first_match_witness :
  exists w',
    @import_stage Demo.installation (Some Demo.latest)
      (Demo.world [Demo.latest] Demo.duplicated_store)
    = (Ok true, w') /\
    store w' = Demo.duplicated_store /\
    events w'
    = [entering; Add "object-b";
       anomaly "abc-123";
       PackageShow empty_context "pkg-test-set";
       PackageShow (@base_context Demo.installation) "source-1";
       Log DEBUG "Existing dataset abc-123";
       PackageUpdate (@base_context Demo.installation) Samples.test_set_record].
Proof.
  apply (@import_stage_anomaly_updates_first_match Demo.installation
           Demo.latest "doc:abc-123" Demo.test_set
           (Demo.world [Demo.latest] Demo.duplicated_store)
           "pkg-test-set" "pkg-copy" []
           (Demo.shown Samples.test_set_package)
           Samples.test_set_record).
  - reflexivity.
  - reflexivity.
  - vm_compute. reflexivity.
  - reflexivity.
  - reflexivity.
  - vm_compute. reflexivity.
Defined.

(** C6, where the code departs from the claim as stated: the update is not
    made on the first match.  In [Samples.swapped_store] the first match
    for [abc-123] is the copy; it is shown, and then [package_update] is
    given the built record, which names no match: it is the same call as
    in [Demo.duplicated_store], where the matches come in the other order,
    and [package_update] resolves it, by the record's name, to the second
    match.  Nor does every import with several matches reach the update:
    with two records under [una-9], the import of [Demo.malformed] logs the
    anomaly, shows the first match and ends with the builder's exception,
    no update made. *)
Lemma anomaly_update_is_not_tied_to_first_match :
  query_identifier Samples.swapped_store "abc-123"
  = ["pkg-copy"; "pkg-test-set"] /\
  query_identifier Demo.duplicated_store "abc-123"
  = ["pkg-test-set"; "pkg-copy"] /\
  (exists w',
     @import_stage Demo.installation (Some Demo.latest)
       (Demo.world [Demo.latest] Samples.swapped_store)
     = (Ok true, w') /\
     events w'
     = [entering; Add "object-b";
        anomaly "abc-123";
        PackageShow empty_context "pkg-copy";
        PackageShow (@base_context Demo.installation) "source-1";
        Log DEBUG "Existing dataset abc-123";
        PackageUpdate (@base_context Demo.installation)
                      Samples.test_set_record]) /\
  filter reconciles
    (events (snd (@import_stage Demo.installation (Some Demo.latest)
                    (Demo.world [Demo.latest] Demo.duplicated_store))))
  = [PackageUpdate (@base_context Demo.installation) Samples.test_set_record] /\
  fst (@package_update Demo.installation (@base_context Demo.installation)
         Samples.test_set_record Samples.swapped_store)
  = Ok (Demo.shown Samples.test_set_package) /\
  (exists w',
     @import_stage Demo.installation (Some Demo.malformed)
       (Demo.world [Demo.malformed] Samples.duplicated_unattributed)
     = (Raise (KeyError "attribution"), w') /\
     events w'
     = [entering; Add "object-u";
        anomaly "una-9";
        PackageShow empty_context "pkg-una";
        PackageShow (@base_context Demo.installation) "source-1"]).
Proof.
  split; [vm_compute; reflexivity|].
  split; [vm_compute; reflexivity|].
  split; [eexists; split; vm_compute; reflexivity|].
  split; [vm_compute; reflexivity|].
  split; [vm_compute; reflexivity|].
  eexists; split; vm_compute; reflexivity.
Qed.

Lemma second_import_takes_update_path_witness :
  exists pd,
    @built Demo.installation (@base_context Demo.installation) Demo.latest
      (store Demo.start) = Ok pd /\
    store (snd (@import_stage Demo.installation (Some Demo.latest) Demo.start))
    = snd (@package_create Demo.installation (@base_context Demo.installation)
             pd (store Demo.start)) /\
    events (snd (@import_stage Demo.installation (Some Demo.latest) Demo.start))
    = (events Demo.start
       ++ [entering; Add (ho_id Demo.latest);
           PackageShow (@base_context Demo.installation)
                       (source_id (ho_source Demo.latest));
           Log DEBUG ("New dataset " ++ @text Demo.installation (pkg_identifier pd));
           PackageCreate (@base_context Demo.installation) pd])%list /\
    exists first rest r2 w2 es,
      query_identifier
        (store (snd (@import_stage Demo.installation (Some Demo.latest)
                       Demo.start)))
        (ho_guid Samples.rerun) = first :: rest /\
      @import_stage Demo.installation (Some Samples.rerun)
        (snd (@import_stage Demo.installation (Some Demo.latest) Demo.start))
      = (r2, w2) /\
      (r2 = Ok true \/ r2 = Ok false) /\
      events w2
      = (events (snd (@import_stage Demo.installation (Some Demo.latest)
                        Demo.start)) ++ es)%list /\
      In (PackageShow empty_context first) es /\
      filter reconciles es
      = [PackageUpdate (@base_context Demo.installation) pd].
Proof.
  apply (@second_import_takes_update_path Demo.installation
           Demo.latest Samples.rerun "doc:abc-123" Demo.test_set Demo.start).
  - reflexivity.
  - reflexivity.
  - repeat split.
  - vm_compute. reflexivity.
  - vm_compute. reflexivity.
  - exists Samples.test_set_package.
    exists {| extra_package_id := "pkg-test-set"; extra_key := "identifier";
              extra_value := "abc-123" |}.
    repeat split; vm_compute; auto.
  - intros id Hin. vm_compute in Hin. destruct Hin as [Hid|[]]. subst id.
    eexists. split; vm_compute; reflexivity.
  - vm_compute. reflexivity.
Defined.

(** The second import in the witness above, run. *)
Example rerun_updates :
  filter reconciles
    (events (snd (@import_stage Demo.installation (Some Samples.rerun)
                    (snd (@import_stage Demo.installation (Some Demo.latest)
                            Demo.start)))))
  = [PackageCreate (@base_context Demo.installation) Samples.test_set_record;
     PackageUpdate (@base_context Demo.installation) Samples.test_set_record].
Proof. vm_compute. reflexivity. Qed.

(** C4, where the code departs from the claim as stated: with
    [Samples.plain], whose [package_create] stores the extras it is given,
    the record created by the first import has no [identifier] extra -- the
    harvester put the identifier among the record's top-level keys.  The
    existence check of the second import finds nothing under the guid, and
    the import takes the create path again: [package_create] is called a
    second time with the same record, [package_update] is not called, and
    the import fails on the name that is taken. *)
Lemma second_import_creates_again :
  fst (@import_stage Samples.plain (Some Demo.latest) Demo.start) = Ok true /\
  query_identifier
    (store (snd (@import_stage Samples.plain (Some Demo.latest) Demo.start)))
    "abc-123" = [] /\
  fst (@import_stage Samples.plain (Some Samples.rerun)
         (snd (@import_stage Samples.plain (Some Demo.latest) Demo.start)))
  = Ok false /\
  filter reconciles
    (events (snd (@import_stage Samples.plain (Some Samples.rerun)
                    (snd (@import_stage Samples.plain (Some Demo.latest)
                            Demo.start)))))
  = [PackageCreate (@base_context Samples.plain) Samples.test_set_record;
     PackageCreate (@base_context Samples.plain) Samples.test_set_record].
Proof.
  split; [vm_compute; reflexivity|].
  split; [vm_compute; reflexivity|].
  split; vm_compute; reflexivity.
Qed.

Lemma page_datasets_yields_pages_in_order_witness :
  exists w',
    @pager_run Demo.installation 3
      (_page_datasets Demo.example_job "data.example.com" 100) []
      (Demo.world [] Demo.fresh_store)
    = Some (concat [[Demo.test_set; Demo.rivers]], None, w') /\
    requests_of (events w')
    = (requests_of (events (Demo.world [] Demo.fresh_store))
       ++ map (fun i => request_url "data.example.com" 100 (i * 100))
              (seq 0 (S (length [[Demo.test_set; Demo.rivers]]))))%list.
Proof.
  apply (@page_datasets_yields_pages_in_order Demo.installation
           Demo.example_job "data.example.com" 100
           (Demo.world [] Demo.fresh_store)
           [[Demo.test_set; Demo.rivers]] (JArr []) 3).
  - intros i page H. destruct i as [|i].
    + inversion H; subst page. split; [discriminate | reflexivity].
    + destruct i; discriminate H.
  - reflexivity.
  - reflexivity.
  - simpl. lia.
Defined.


(** The scenario of the specification: the descriptor [test_set] harvested
    from [https://data.example.com]. *)
Example test_set_record :
  exists pd w',
    @_build_package_dict Demo.installation (@base_context Demo.installation)
      Demo.latest Demo.start = (Ok pd, w') /\
    pkg_name pd = "test-set" /\
    pkg_tags pd = [ {| tag_name := "foo" |} ] /\
    pkg_harvest_source_url pd = "https://data.example.com".
Proof.
  eexists. eexists. split; [vm_compute; reflexivity|].
  repeat split; reflexivity.
Qed.

(** The rate-limited catalog: the gather run returns the two objects of the
    first page and records the error. *)
Example rate_limited_gather :
  exists w',
    @gather_stage Demo.limited_installation 3 Demo.example_job
      (Demo.world [] Demo.fresh_store)
    = Some (Ok ["object-0"; "object-1"], w') /\
    gather_errors_of (events w')
    = [SaveGatherError "Gather error: rate limited" Demo.example_job].
Proof.
  eexists. split; [vm_compute; reflexivity|]. reflexivity.
Qed.

(** * The further properties on the small installation *)

Lemma get_object_extra_takes_first_match_witness :
  _get_object_extra
    ([ {| object_extra_key := "format"; object_extra_value := Some "csv" |} ]
     ++ {| object_extra_key := "status"; object_extra_value := Some "delete" |}
     :: [ {| object_extra_key := "status"; object_extra_value := Some "new" |} ])%list
    "status"
  = Some "delete".
Proof.
  apply (get_object_extra_takes_first_match
           [ {| object_extra_key := "format"; object_extra_value := Some "csv" |} ]
           [ {| object_extra_key := "status"; object_extra_value := Some "new" |} ]
           {| object_extra_key := "status"; object_extra_value := Some "delete" |}
           "status").
  - intros e [H|[]]. subst e. simpl. discriminate.
  - reflexivity.
Defined.

Lemma get_object_extra_without_match_witness :
  _get_object_extra Samples.extras "guid" = None.
Proof.
  apply (get_object_extra_without_match Samples.extras "guid").
  intros e H. simpl in H.
  destruct H as [H|[H|[H|[]]]]; subst e; simpl; discriminate.
Defined.

Lemma get_existing_dataset_single_match_witness :
  @_get_existing_dataset Samples.installation "abc-123"
    (Demo.world [] Samples.imported_store)
  = (match @package_show Samples.installation empty_context "pkg-test-set"
             (store (Demo.world [] Samples.imported_store)) with
     | Ok shown => Ok (Some shown)
     | Raise e => Raise e
     end,
     record (PackageShow empty_context "pkg-test-set")
            (Demo.world [] Samples.imported_store)).
Proof.
  apply (@get_existing_dataset_single_match Samples.installation "abc-123"
           (Demo.world [] Samples.imported_store) "pkg-test-set").
  vm_compute. reflexivity.
Defined.

Lemma build_package_dict_copies_descriptor_fields_witness :
  getitem Samples.documented_resource "name"
  = Ok (pkg_title Samples.documented_record) /\
  @munge_title_to_name Samples.installation (pkg_title Samples.documented_record)
  = Ok (pkg_name Samples.documented_record) /\
  getitem Samples.documented_resource "attribution"
  = Ok (pkg_author Samples.documented_record) /\
  getitem Samples.documented_resource "id"
  = Ok (pkg_identifier Samples.documented_record) /\
  get Samples.documented "permalink" (JStr "")
  = Ok (pkg_url Samples.documented_record) /\
  get Samples.documented_resource "description" (JStr "")
  = Ok (pkg_notes Samples.documented_record).
Proof.
  apply (@build_package_dict_copies_descriptor_fields Samples.installation
           (@base_context Samples.installation) Samples.documented_object
           Demo.start Samples.documented_record
           (snd (@_build_package_dict Samples.installation
                   (@base_context Samples.installation)
                   Samples.documented_object Demo.start))
           Samples.documented Samples.documented_resource).
  - vm_compute. reflexivity.
  - reflexivity.
  - reflexivity.
Defined.

Lemma build_package_dict_provenance_when_declared_witness :
  exists declared,
    get Samples.documented_resource "provenance" (JBool false) = Ok declared /\
    pkg_provenance Samples.documented_record
    = (if truthy declared then Some declared else None).
Proof.
  apply (@build_package_dict_provenance_when_declared Samples.installation
           (@base_context Samples.installation) Samples.documented_object
           Demo.start Samples.documented_record
           (snd (@_build_package_dict Samples.installation
                   (@base_context Samples.installation)
                   Samples.documented_object Demo.start))
           Samples.documented).
  - vm_compute. reflexivity.
  - reflexivity.
  - reflexivity.
Defined.

Lemma build_package_dict_harvest_source_details_witness :
  pkg_harvest_source_id Samples.documented_record
  = source_id (job_source (ho_job Samples.documented_object)) /\
  pkg_harvest_source_title Samples.documented_record
  = source_title (job_source (ho_job Samples.documented_object)) /\
  (exists n m,
     source_url (job_source (ho_job Samples.documented_object))
     = repeat_char "/"%char n
       ++ pkg_harvest_source_url Samples.documented_record
       ++ repeat_char "/"%char m) /\
  ~ starts_with "/"%char (pkg_harvest_source_url Samples.documented_record) /\
  ~ ends_with "/"%char (pkg_harvest_source_url Samples.documented_record) /\
  exists source_dataset,
    @package_show Samples.installation (@base_context Samples.installation)
      (source_id (ho_source Samples.documented_object)) (store Demo.start)
    = Ok source_dataset /\
    get source_dataset "owner_org" JNull
    = Ok (pkg_owner_org Samples.documented_record).
Proof.
  apply (@build_package_dict_harvest_source_details Samples.installation
           (@base_context Samples.installation) Samples.documented_object
           Demo.start Samples.documented_record
           (snd (@_build_package_dict Samples.installation
                   (@base_context Samples.installation)
                   Samples.documented_object Demo.start))).
  vm_compute. reflexivity.
Defined.

Lemma build_package_dict_extras_are_domain_metadata_witness :
  exists domain_metadata,
    get (JObj [("domain_metadata",
                JArr [JObj [("key", JStr "Period"); ("value", JStr "2016")]])])
        "domain_metadata" (JArr []) = Ok domain_metadata /\
    py_iter domain_metadata = Ok (pkg_extras Samples.documented_record).
Proof.
  apply (@build_package_dict_extras_are_domain_metadata Samples.installation
           (@base_context Samples.installation) Samples.documented_object
           Demo.start Samples.documented_record
           (snd (@_build_package_dict Samples.installation
                   (@base_context Samples.installation)
                   Samples.documented_object Demo.start))
           Samples.documented).
  - vm_compute. reflexivity.
  - reflexivity.
  - reflexivity.
Defined.

Lemma build_package_dict_needs_classification_witness :
  @_build_package_dict Samples.installation
    (@base_context Samples.installation) Samples.unclassified_object Demo.start
  = (Raise (KeyError "classification"),
     record (PackageShow (@base_context Samples.installation) "source-1")
            Demo.start).
Proof.
  apply (@build_package_dict_needs_classification Samples.installation
           (@base_context Samples.installation) Samples.unclassified_object
           Demo.start (Demo.shown Demo.source_package) (JStr "org-1")
           Samples.unclassified
           (JObj [("id", JStr "ncl-1"); ("name", JStr "Unclassified");
                  ("attribution", JStr "Org")])
           (JStr "Unclassified") (JStr "Org") (JStr "ncl-1") "unclassified");
    reflexivity.
Defined.

Lemma request_datasets_raises_on_unexpected_body_witness :
  exists e w',
    @_request_datasets_from_socrata
      (Samples.externals [Body (JNum 5)] Demo.show)
      Demo.example_job "data.example.com" 100 0
      (Demo.world [] Demo.fresh_store) = (Raise e, w') /\
    e = TypeError /\
    gather_errors_of (events w')
    = gather_errors_of (events (Demo.world [] Demo.fresh_store)).
Proof.
  apply (@request_datasets_raises_on_unexpected_body
           (Samples.externals [Body (JNum 5)] Demo.show)
           Demo.example_job "data.example.com" 100 0
           (Demo.world [] Demo.fresh_store) (JNum 5)).
  - reflexivity.
  - intros members H. discriminate H.
Defined.




Lemma make_harvest_obj_saves_the_descriptor_witness :
  exists o,
    In o (harvest_objects
            (snd (@make_harvest_obj Samples.installation Demo.example_job
                    Demo.test_set (Demo.world [] Demo.fresh_store)))) /\
    ho_id o = "object-0" /\
    ho_job o = Demo.example_job /\
    ho_source o = job_source Demo.example_job /\
    ho_content o = Some (@json_dumps Samples.installation Demo.test_set) /\
    ho_current o = false /\
    (forall guid, descriptor_id Demo.test_set = Ok (JStr guid) ->
                  ho_guid o = guid) /\
    (@json_loads Samples.installation
       (@json_dumps Samples.installation Demo.test_set) = Ok Demo.test_set ->
     @loads_content Samples.installation o = Ok Demo.test_set).
Proof.
  apply (@make_harvest_obj_saves_the_descriptor Samples.installation
           Demo.example_job Demo.test_set (Demo.world [] Demo.fresh_store)
           "object-0").
  vm_compute. reflexivity.
Defined.

Lemma import_stage_create_path_witness :
  exists w',
    @import_stage Samples.installation (Some Demo.latest) Demo.start
    = (Ok true, w') /\
    In (PackageCreate (@base_context Samples.installation)
          Samples.test_set_record) (events w').
Proof.
  destruct (@import_stage_create_path Samples.installation Demo.latest
              "doc:abc-123" Demo.test_set Demo.start Samples.test_set_record)
    as (w' & Hrun & _ & Hev).
  - reflexivity.
  - reflexivity.
  - vm_compute. reflexivity.
  - vm_compute. reflexivity.
  - exists w'. split; [exact Hrun|]. rewrite Hev.
    apply in_or_app. right. simpl. auto 10.
Defined.

Lemma import_stage_update_path_witness :
  exists w',
    @import_stage Samples.installation (Some Demo.latest)
      (Demo.world [Demo.latest] Samples.imported_store) = (Ok true, w') /\
    In (PackageUpdate (@base_context Samples.installation)
          Samples.test_set_record) (events w').
Proof.
  destruct (@import_stage_update_path Samples.installation Demo.latest
              "doc:abc-123" Demo.test_set
              (Demo.world [Demo.latest] Samples.imported_store)
              "pkg-test-set"
              (Demo.shown {| package_id := "pkg-test-set";
                             package_name := "test-set";
                             package_state := "active";
                             package_owner_org := JStr "org-1" |})
              Samples.test_set_record)
    as (w' & Hrun & _ & Hev).
  - reflexivity.
  - reflexivity.
  - vm_compute. reflexivity.
  - reflexivity.
  - reflexivity.
  - vm_compute. reflexivity.
  - exists w'. split; [exact Hrun|]. rewrite Hev.
    apply in_or_app. right. simpl. auto 10.
Defined.

Lemma import_stage_reconciles_at_most_once_witness :
  exists es,
    events (snd (@import_stage Samples.installation (Some Demo.latest)
                   Demo.start))
    = (events Demo.start ++ es)%list /\
    length (filter reconciles es) <= 1 /\
    (fst (@import_stage Samples.installation (Some Demo.latest) Demo.start)
     = Ok true -> length (filter reconciles es) = 1).
Proof.
  apply (@import_stage_reconciles_at_most_once Samples.installation
           (Some Demo.latest) Demo.start).
  vm_compute. reflexivity.
Defined.

Lemma import_stage_leaves_other_objects_witness :
  In Demo.previous
     (harvest_objects
        (snd (@import_stage Samples.installation (Some Demo.latest)
                Demo.start)))
  <-> In Demo.previous (harvest_objects Demo.start).
Proof.
  apply (@import_stage_leaves_other_objects Samples.installation
           (Some Demo.latest) Demo.start
           (fst (@import_stage Samples.installation (Some Demo.latest)
                   Demo.start))).
  - vm_compute. reflexivity.
  - intros o H. inversion H; subst o. simpl. discriminate.
Defined.

Lemma import_stage_undecodable_content_witness :
  exists w',
    @import_stage Samples.installation (Some Samples.garbled)
      (Demo.world [Samples.garbled] Demo.fresh_store)
    = (Raise ValueError, w') /\
    events w'
    = (events (Demo.world [Samples.garbled] Demo.fresh_store)
       ++ [entering; Add (ho_id Samples.garbled)])%list /\
    harvest_objects w'
    = put_object (with_current Samples.garbled true)
        (harvest_objects (Demo.world [Samples.garbled] Demo.fresh_store)) /\
    store w' = store (Demo.world [Samples.garbled] Demo.fresh_store).
Proof.
  apply (@import_stage_undecodable_content Samples.installation
           Samples.garbled "{not json" ValueError
           (Demo.world [Samples.garbled] Demo.fresh_store)).
  - reflexivity.
  - reflexivity.
Defined.

Lemma import_stage_again_keeps_the_table_witness :
  harvest_objects
    (snd (@import_stage Samples.installation (Some Demo.latest)
            (snd (@import_stage Samples.installation (Some Demo.latest)
                    Demo.start))))
  = harvest_objects
      (snd (@import_stage Samples.installation (Some Demo.latest) Demo.start)).
Proof.
  apply (@import_stage_again_keeps_the_table Samples.installation
           Demo.latest "doc:abc-123" Demo.start
           (snd (@import_stage Samples.installation (Some Demo.latest)
                   Demo.start))
           (snd (@import_stage Samples.installation (Some Demo.latest)
                   (snd (@import_stage Samples.installation (Some Demo.latest)
                           Demo.start))))
           (fst (@import_stage Samples.installation (Some Demo.latest)
                   Demo.start))
           (fst (@import_stage Samples.installation (Some Demo.latest)
                   (snd (@import_stage Samples.installation (Some Demo.latest)
                           Demo.start))))).
  - reflexivity.
  - vm_compute. reflexivity.
  - vm_compute. reflexivity.
Defined.

Lemma import_stage_existence_check_failure_witness :
  exists w',
    @import_stage Samples.restricted (Some Demo.latest)
      (Demo.world [Demo.latest] Samples.imported_store)
    = (Raise (ActionError "Not authorized"), w') /\
    events w'
    = (events (Demo.world [Demo.latest] Samples.imported_store)
       ++ [entering; Add (ho_id Demo.latest)]
       ++ []
       ++ [PackageShow empty_context "pkg-test-set"])%list /\
    store w' = store (Demo.world [Demo.latest] Samples.imported_store).
Proof.
  apply (@import_stage_existence_check_failure Samples.restricted
           Demo.latest "doc:abc-123" Demo.test_set
           (Demo.world [Demo.latest] Samples.imported_store)
           "pkg-test-set" [] (ActionError "Not authorized")).
  - reflexivity.
  - reflexivity.
  - vm_compute. reflexivity.
  - reflexivity.
Defined.

Lemma build_package_dict_without_hostname_witness :
  exists pd,
    fst (@_build_package_dict Samples.installation
           (@base_context Samples.installation) Samples.hostless_object
           Demo.start) = Ok pd /\
    pkg_resources pd
    = [ {| resource_url :=
             "https://None/api/views/" ++ "abc-123"
             ++ "/rows.csv?accessType=DOWNLOAD";
           resource_format := "CSV" |} ].
Proof.
  eexists. split; [vm_compute; reflexivity|].
  apply (@build_package_dict_without_hostname Samples.installation
           (@base_context Samples.installation) Samples.hostless_object
           Demo.start _
           (snd (@_build_package_dict Samples.installation
                   (@base_context Samples.installation)
                   Samples.hostless_object Demo.start))
           Demo.test_set "abc-123").
  - vm_compute. reflexivity.
  - reflexivity.
  - reflexivity.
  - reflexivity.
Defined.
